(** * google-docs-mcp-server: the document client, the tool dispatcher and
      the connectivity check, embedded and verified.

    Sources embedded here:
    - [src/google-docs-client.ts]  (class [GoogleDocsClient])
    - [src/index.ts]               (the [CallToolRequestSchema] handler)
    - [src/test-connection.ts]     (function [main])

    JavaScript values are modelled at their TypeScript types; a value of
    type [T | undefined] is an [option T] with [None] for [undefined].
    Asynchronous code is sequential here: every [await] is a call to the
    remote service, answered by an oracle that sees the requests issued so
    far.  A [throw] is the left injection of the program monad. *)

From Stdlib Require Import String ZArith List Bool Lia.
Import ListNotations.
Local Open Scope string_scope.
Local Open Scope Z_scope.

Set Implicit Arguments.

(* ------------------------------------------------------------------ *)
(** ** JavaScript truthiness and the [||] operator *)

Module Js.

(** [!!s] for a string: only the empty string is falsy. *)
Definition truthy_string (s : string) : bool :=
  match s with EmptyString => false | String _ _ => true end.

(** [!!v] for [string | undefined]. *)
Definition truthy (v : option string) : bool :=
  match v with Some s => truthy_string s | None => false end.

(** [a || b] on [string | undefined]. *)
Definition or (a b : option string) : option string :=
  if truthy a then a else b.

(** [a || d] where [d] is a string literal. *)
Definition or_default (a : option string) (d : string) : string :=
  match a with
  | Some s => if truthy_string s then s else d
  | None => d
  end.

(** [n || d] where [d] is a number literal. *)
Definition or_num (a : option Z) (d : Z) : Z :=
  match a with
  | Some n => if n =? 0 then d else n
  | None => d
  end.

(** A value of type [string | undefined] inside a template literal. *)
Definition tpl (v : option string) : string :=
  match v with Some s => s | None => "undefined" end.

(** The string of a value already tested truthy. *)
Definition the (v : option string) : string :=
  match v with Some s => s | None => EmptyString end.

(** A parameter with a default value: the default replaces [undefined]
    only. *)
Definition param {A : Type} (v : option A) (d : A) : A :=
  match v with Some a => a | None => d end.

End Js.

(* ------------------------------------------------------------------ *)
(** ** Errors *)

(** The [code] member of an error: googleapis sets a number or a string. *)
Inductive ErrCode : Type :=
| CodeNum (n : Z)
| CodeStr (s : string).

(** What the program reads of a thrown value ([error: any]). *)
Record JsError : Type := mkJsError {
  message : string;
  code : option ErrCode;
  details : option string;
  stack : option string
}.

Definition truthy_code (c : option ErrCode) : bool :=
  match c with
  | Some (CodeNum n) => negb (n =? 0)
  | Some (CodeStr s) => Js.truthy_string s
  | None => false
  end.

(** [c === 403] *)
Definition code_is_403 (c : option ErrCode) : bool :=
  match c with
  | Some (CodeNum n) => n =? 403
  | _ => false
  end.

(* ------------------------------------------------------------------ *)
(** ** Data of the remote APIs (googleapis typings, members the program
       reads or forwards) *)

Record StructuralElement : Type := mkElement {
  startIndex : option Z;
  endIndex : option Z
}.

Record Body : Type := mkBody {
  content : option (list StructuralElement)
}.

Record Document : Type := mkDocument {
  doc_id : option string;
  doc_title : option string;
  body : option Body
}.

Record DriveFile : Type := mkFile {
  file_id : option string;
  file_name : option string;
  createdTime : option string;
  modifiedTime : option string;
  webViewLink : option string
}.

Record FileList : Type := mkFileList {
  files : option (list DriveFile);
  nextPageToken : option string
}.

Record Permission : Type := mkPermission {
  perm_id : option string;
  perm_type : option string;
  perm_role : option string
}.

(** One element of a [batchUpdate] request list. *)
Inductive DocsRequest : Type :=
| InsertText (index : Z) (text : option string)
| DeleteContentRange (range_start range_end : Z).

(** A call to the remote service, with the parameters the program sends. *)
Inductive Request : Type :=
| FilesCreate (name : option string) (mimeType : string)
| DocumentsGet (documentId : option string)
| DocumentsBatchUpdate (documentId : option string) (requests : list DocsRequest)
| FilesList (pageSize : Z) (pageToken : option string) (q fields : string)
| FilesDelete (fileId : option string)
| FilesExport (fileId : option string) (mimeType responseType : string)
| PermissionsCreate (fileId : option string)
                    (type_ : string) (role : string) (emailAddress : option string).

(** The [data] member of the response to each call. *)
Definition response (rq : Request) : Type :=
  match rq with
  | FilesCreate _ _ => DriveFile
  | DocumentsGet _ => Document
  | DocumentsBatchUpdate _ _ => unit
  | FilesList _ _ _ _ => FileList
  | FilesDelete _ => unit
  | FilesExport _ _ _ => list Byte.byte
  | PermissionsCreate _ _ _ _ => Permission
  end.

(* ------------------------------------------------------------------ *)
(** ** Results of the client operations *)

(** The [error] member of a failed connection check. *)
Record ErrorInfo : Type := mkErrorInfo {
  info_message : string;
  info_code : ErrCode;
  info_details : option string
}.

(** The [details] member of a successful connection check. *)
Record ConnectionDetails : Type := mkDetails {
  authType : string;
  apiVersion : string;
  documentCount : Z
}.

(** The object literals the operations return ([Promise<any>]), one
    constructor per shape. *)
Inductive OpResult : Type :=
(** [{ documentId, title, url, document }] *)
| Created (documentId title : option string) (url : string) (document : Document)
(** [response.data] of [documents.get] *)
| DocumentData (d : Document)
(** [{ documents, nextPageToken }] *)
| Listing (documents : option (list DriveFile)) (next : option string)
(** [{ success: true, documentId, message }] *)
| Deleted (documentId : option string) (msg : string)
(** [{ documentId, mimeType, content }] *)
| Exported (documentId : option string) (mimeType : string) (content64 : string)
(** [{ success: true, documentId, permission }] *)
| Shared (documentId : option string) (permission : Permission)
(** [{ connected: true, projectId, timestamp, details }] *)
| Connected (projectId timestamp : string) (d : ConnectionDetails)
(** [{ connected: false, projectId, timestamp, error }] *)
| NotConnected (projectId timestamp : string) (error : ErrorInfo)
(** [{ error: message }] *)
| ErrorResult (error : string)
(** [{ success: false, error: message }] *)
| FailureResult (error : string).

(* ------------------------------------------------------------------ *)
(** ** The environment of the process and the program monad *)

(** [process.env]: the six variables the program reads. *)
Record ProcessEnv : Type := mkProcessEnv {
  GOOGLE_CLOUD_PROJECT_ID : option string;
  GOOGLE_API_KEY : option string;
  GOOGLE_APPLICATION_CREDENTIALS : option string;
  GOOGLE_OAUTH_CLIENT_ID : option string;
  GOOGLE_OAUTH_CLIENT_SECRET : option string;
  GOOGLE_OAUTH_REFRESH_TOKEN : option string
}.

(** The result of [parseArgs]: the [values] object. *)
Record CliValues : Type := mkCliValues {
  credentials_path : option string;
  api_key : option string;
  project_id : option string;
  oauth_client_id : option string;
  oauth_client_secret : option string;
  oauth_refresh_token : option string
}.

(** Everything the program takes from outside its own source. *)
Record Env : Type := mkEnv {
  (** [process.env] *)
  env : ProcessEnv;
  (** [fs.existsSync] *)
  existsSync : string -> bool;
  (** [new Date().toISOString()] *)
  now : string;
  (** the stack text the engine attaches to [new Error(msg)] *)
  capture_stack : string -> string;
  (** the remote service: the outcome of a call, given the calls before *)
  remote : list Request -> forall rq : Request, JsError + response rq;
  (** [Buffer.from(data).toString('base64')] *)
  base64 : list Byte.byte -> string;
  (** [ErrorCode.MethodNotFound] of the MCP SDK *)
  MethodNotFound : Z;
  (** the message the SDK's [McpError] constructor builds *)
  mcp_message : Z -> string -> string;
  (** [parseArgs(...)]: throws on a malformed command line *)
  parseArgs : JsError + CliValues
}.

(** A line written to the console; errors are logged next to a label. *)
Inductive ConsoleLine : Type :=
| Log (line : string)
| LogJson (r : OpResult)
| LogError (label : string) (e : JsError)
| LogErrorMessage (label : string) (msg : string).

(** What the program has done so far. *)
Record Trace : Type := mkTrace {
  issued : list Request;
  console : list ConsoleLine
}.

Definition start : Trace := mkTrace [] [].

(** A computation reads the environment, extends the trace and either
    throws or returns.  The trace survives a throw. *)
Definition M (A : Type) : Type := Env -> Trace -> (JsError + A) * Trace.

Definition ret {A : Type} (a : A) : M A := fun _ t => (inr a, t).

Definition bind {A B : Type} (m : M A) (k : A -> M B) : M B :=
  fun E t =>
    match m E t with
    | (inr a, t') => k a E t'
    | (inl e, t') => (inl e, t')
    end.

Definition throw {A : Type} (e : JsError) : M A := fun _ t => (inl e, t).

(** [try { m } catch (error) { h error }] *)
Definition try_catch {A : Type} (m : M A) (h : JsError -> M A) : M A :=
  fun E t =>
    match m E t with
    | (inr a, t') => (inr a, t')
    | (inl e, t') => h e E t'
    end.

Definition ask : M Env := fun E t => (inr E, t).

Declare Scope prog_scope.
Delimit Scope prog_scope with prog.
Notation "x <- m ;; k" := (bind m (fun x => k))
  (at level 61, m at next level, right associativity) : prog_scope.
Notation "m ;; k" := (bind m (fun _ => k))
  (at level 61, right associativity) : prog_scope.
Local Open Scope prog_scope.

(** [when c m]: an [if] without [else]. *)
Definition when (c : bool) (m : M unit) : M unit :=
  if c then m else ret tt.

(** [new Error(msg)] *)
Definition new_Error (E : Env) (msg : string) : JsError :=
  mkJsError msg None None (Some (capture_stack E msg)).

(** [throw new Error(msg)] *)
Definition throw_Error {A : Type} (msg : string) : M A :=
  fun E t => (inl (new_Error E msg), t).

(** [new McpError(code, msg)]: an [Error] that carries the protocol code. *)
Definition new_McpError (E : Env) (c : Z) (msg : string) : JsError :=
  let m := mcp_message E c msg in
  mkJsError m (Some (CodeNum c)) None (Some (capture_stack E m)).

(** [await] of a remote call: the call is recorded, then it resolves or
    rejects. *)
Definition call (rq : Request) : M (response rq) :=
  fun E t =>
    (remote E (issued t) rq, mkTrace (issued t ++ [rq]) (console t)).

Definition console_log (line : string) : M unit :=
  fun _ t => (inr tt, mkTrace (issued t) (console t ++ [Log line])).

(** [console.error(label, error)] *)
Definition console_error (label : string) (e : JsError) : M unit :=
  fun _ t => (inr tt, mkTrace (issued t) (console t ++ [LogError label e])).

(** [console.log(JSON.stringify(result, null, 2))] *)
Definition console_json (r : OpResult) : M unit :=
  fun _ t => (inr tt, mkTrace (issued t) (console t ++ [LogJson r])).

(** [console.error(label, error.message)] *)
Definition console_error_message (label msg : string) : M unit :=
  fun _ t => (inr tt, mkTrace (issued t) (console t ++ [LogErrorMessage label msg])).

(* ------------------------------------------------------------------ *)
(** ** [GoogleDocsClient] (src/google-docs-client.ts) *)

(** The value stored in [this.auth]. *)
Inductive Auth : Type :=
| ApiKeyAuth (key : string)
| GoogleAuth (keyFile : string) (scopes : list string)
| OAuth2 (clientId clientSecret refresh_token : string).

(** The [options] argument of the constructor. *)
Record Options : Type := mkOptions {
  serviceAccountPath : option string;
  apiKey : option string;
  projectId : option string;
  oauthClientId : option string;
  oauthClientSecret : option string;
  oauthRefreshToken : option string
}.

(** The private members; [docsClient] and [driveClient] are handles on
    [remote] built from [auth]. *)
Record GoogleDocsClient : Type := mkClient {
  this_projectId : string;
  this_auth : option Auth
}.

Definition document_mime : string := "application/vnd.google-apps.document".

Definition auth_scopes : list string :=
  ["https://www.googleapis.com/auth/documents";
   "https://www.googleapis.com/auth/drive"].

Definition project_required : string :=
  "GOOGLE_CLOUD_PROJECT_ID environment variable or projectId parameter is required".

Definition credentials_required : string :=
  "Either GOOGLE_API_KEY, GOOGLE_APPLICATION_CREDENTIALS, or OAuth credentials must be provided".

Definition key_file_not_found (path : option string) : string :=
  "Service account key file not found at: " ++ Js.tpl path.

(** The values the constructor resolves from its argument and
    [process.env]: [options.x || process.env.X]. *)
Definition resolved_project (options : Options) (E : Env) : string :=
  Js.or_default (Js.or (projectId options) (GOOGLE_CLOUD_PROJECT_ID (env E)))
    EmptyString.

Definition resolved_key (options : Options) (E : Env) : option string :=
  Js.or (apiKey options) (GOOGLE_API_KEY (env E)).

Definition resolved_path (options : Options) (E : Env) : option string :=
  Js.or (serviceAccountPath options) (GOOGLE_APPLICATION_CREDENTIALS (env E)).

Definition resolved_oauth (options : Options) (E : Env)
    : option string * option string * option string :=
  (Js.or (oauthClientId options) (GOOGLE_OAUTH_CLIENT_ID (env E)),
   Js.or (oauthClientSecret options) (GOOGLE_OAUTH_CLIENT_SECRET (env E)),
   Js.or (oauthRefreshToken options) (GOOGLE_OAUTH_REFRESH_TOKEN (env E))).

Definition oauth_complete (o : option string * option string * option string) : bool :=
  let '(cid, secret, token) := o in
  Js.truthy cid && Js.truthy secret && Js.truthy token.

Definition constructor (options : Options) : M GoogleDocsClient :=
  E <- ask ;;
  let project := resolved_project options E in
  if negb (Js.truthy_string project) then throw_Error project_required else
  let key := resolved_key options E in
  let path := resolved_path options E in
  let '(cid, secret, token) := resolved_oauth options E in
  if negb (Js.truthy key) && negb (Js.truthy path)
     && negb (Js.truthy cid && Js.truthy secret && Js.truthy token)
  then throw_Error credentials_required else
  auth <-
    (if Js.truthy key then
       console_log "Using API key authentication" ;;
       ret (Some (ApiKeyAuth (Js.the key)))
     else if Js.truthy path then
       if negb (existsSync E (Js.the path))
       then throw_Error (key_file_not_found path)
       else
         console_log "Using service account authentication" ;;
         ret (Some (GoogleAuth (Js.the path) auth_scopes))
     else if Js.truthy cid && Js.truthy secret && Js.truthy token then
       console_log "Using OAuth2 authentication" ;;
       ret (Some (OAuth2 (Js.the cid) (Js.the secret) (Js.the token)))
     else ret None) ;;
  console_log "Google Docs client initialized" ;;
  ret (mkClient project auth).

(** [typeof this.auth === 'string'], then the two [instanceof] tests. *)
Definition getAuthType (this : GoogleDocsClient) : string :=
  match this_auth this with
  | Some (ApiKeyAuth _) => "API Key"
  | Some (GoogleAuth _ _) => "Service Account"
  | Some (OAuth2 _ _ _) => "OAuth2"
  | None => "Unknown"
  end.

Definition convertContentToRequests (content : option string) : list DocsRequest :=
  [InsertText 1 content].

(** [requests.length > 0] *)
Definition nonempty {A : Type} (l : list A) : bool :=
  0 <? Z.of_nat (length l).

(** The [catch] block shared by six operations: log, then
    [{ error: error.message }]. *)
Definition catch_error (label : string) (error : JsError) : M OpResult :=
  console_error label error ;;
  ret (ErrorResult (message error)).

(** The [catch] block of [deleteDocument] and [shareDocument]: log, then
    [{ success: false, error: error.message }]. *)
Definition catch_failure (label : string) (error : JsError) : M OpResult :=
  console_error label error ;;
  ret (FailureResult (message error)).

Definition createDocument (this : GoogleDocsClient)
    (title content : option string) : M OpResult :=
  try_catch
    (driveResponse <- call (FilesCreate title document_mime) ;;
     let documentId := file_id driveResponse in
     when (Js.truthy content && Js.truthy documentId)
       (let requests := convertContentToRequests content in
        when (nonempty requests)
          (call (DocumentsBatchUpdate documentId requests))) ;;
     document <- call (DocumentsGet (Some (Js.or_default documentId EmptyString))) ;;
     ret (Created documentId title
            ("https://docs.google.com/document/d/" ++ Js.tpl documentId ++ "/edit")
            document))
    (catch_error "Error creating document:").

Definition getDocument (this : GoogleDocsClient)
    (documentId : option string) : M OpResult :=
  try_catch
    (data <- call (DocumentsGet documentId) ;;
     ret (DocumentData data))
    (catch_error "Error getting document:").

(** [currentDoc.data.body?.content] *)
Definition body_content (d : Document) : option (list StructuralElement) :=
  match body d with
  | Some b => content b
  | None => None
  end.

(** The delete request of [updateDocument], from the blocks of the
    fetched body; reading a member of a missing last block is a
    [TypeError]. *)
Definition clear_request (blocks : list StructuralElement) : M (list DocsRequest) :=
  match nth_error blocks (length blocks - 1) with
  | Some lastBlock =>
      let endIndex := Js.or_num (endIndex lastBlock) 1 in
      ret [DeleteContentRange 1 (endIndex - 1)]
  | None =>
      throw_Error "Cannot read properties of undefined (reading 'endIndex')"
  end.

Definition updateDocument (this : GoogleDocsClient)
    (documentId content : option string) (replaceAll : option bool) : M OpResult :=
  try_catch
    (when (Js.param replaceAll false)
       (currentDoc <- call (DocumentsGet documentId) ;;
        match body_content currentDoc with
        | Some blocks =>
            when (1 <? Z.of_nat (length blocks))
              (requests <- clear_request blocks ;;
               call (DocumentsBatchUpdate documentId requests))
        | None => ret tt
        end) ;;
     let requests := convertContentToRequests content in
     when (nonempty requests)
       (call (DocumentsBatchUpdate documentId requests)) ;;
     document <- call (DocumentsGet documentId) ;;
     ret (DocumentData document))
    (catch_error "Error updating document:").

Definition list_fields : string :=
  "nextPageToken, files(id, name, createdTime, modifiedTime, webViewLink)".

Definition list_query : string :=
  "mimeType='application/vnd.google-apps.document'".

Definition listDocuments (this : GoogleDocsClient)
    (pageSize : option Z) (pageToken : option string) : M OpResult :=
  try_catch
    (data <- call (FilesList (Js.param pageSize 10) pageToken list_query list_fields) ;;
     ret (Listing (files data) (nextPageToken data)))
    (catch_error "Error listing documents:").

Definition deleteDocument (this : GoogleDocsClient)
    (documentId : option string) : M OpResult :=
  try_catch
    (call (FilesDelete documentId) ;;
     ret (Deleted documentId
            ("Document " ++ Js.tpl documentId ++ " successfully deleted")))
    (catch_failure "Error deleting document:").

Definition exportDocument (this : GoogleDocsClient)
    (documentId mimeType : option string) : M OpResult :=
  let mimeType := Js.param mimeType "application/pdf" in
  try_catch
    (data <- call (FilesExport documentId mimeType "arraybuffer") ;;
     E <- ask ;;
     let base64Content := base64 E data in
     ret (Exported documentId mimeType base64Content))
    (catch_error "Error exporting document:").

Definition shareDocument (this : GoogleDocsClient)
    (documentId emailAddress role : option string) : M OpResult :=
  let role := Js.param role "reader" in
  try_catch
    (data <- call (PermissionsCreate documentId "user" role emailAddress) ;;
     ret (Shared documentId data))
    (catch_failure "Error sharing document:").

(** The [q] template of [searchDocuments]. *)
Definition search_query (query : option string) : string :=
  "mimeType='application/vnd.google-apps.document' and (name contains '"
    ++ Js.tpl query ++ "' or fullText contains '" ++ Js.tpl query ++ "')".

Definition searchDocuments (this : GoogleDocsClient)
    (query : option string) (pageSize : option Z) (pageToken : option string)
    : M OpResult :=
  try_catch
    (data <- call (FilesList (Js.param pageSize 10) pageToken
                     (search_query query) list_fields) ;;
     ret (Listing (files data) (nextPageToken data)))
    (catch_error "Error searching documents:").

(** [error.code || 'UNKNOWN_ERROR'] *)
Definition code_or_unknown (c : option ErrCode) : ErrCode :=
  match c with
  | Some x => if truthy_code c then x else CodeStr "UNKNOWN_ERROR"
  | None => CodeStr "UNKNOWN_ERROR"
  end.

(** [response.data.files?.length || 0] *)
Definition count_files (data : FileList) : Z :=
  Js.or_num (option_map (fun l => Z.of_nat (length l)) (files data)) 0.

Definition verifyConnection (this : GoogleDocsClient) : M OpResult :=
  try_catch
    (data <- call (FilesList 1 None list_query "files(id, name)") ;;
     E <- ask ;;
     ret (Connected (this_projectId this) (now E)
            (mkDetails (getAuthType this) "v1" (count_files data))))
    (fun error =>
       console_error "Error verifying Google Docs API connection:" error ;;
       E <- ask ;;
       ret (NotConnected (this_projectId this) (now E)
              (mkErrorInfo (message error)
                 (code_or_unknown (code error))
                 (Js.or (details error) (stack error))))).

(* ------------------------------------------------------------------ *)
(** ** The tool dispatcher (src/index.ts, [setupToolHandlers]) *)

(** [request.params.arguments]: the members the handler reads, at the
    types the tool schemas declare. *)
Record ToolArgs : Type := mkArgs {
  arg_title : option string;
  arg_content : option string;
  arg_documentId : option string;
  arg_replaceAll : option bool;
  arg_pageSize : option Z;
  arg_pageToken : option string;
  arg_mimeType : option string;
  arg_emailAddress : option string;
  arg_role : option string;
  arg_query : option string
}.

(** The object literal [{}]. *)
Definition no_args : ToolArgs :=
  mkArgs None None None None None None None None None None.

(** [request.params] *)
Record CallToolRequest : Type := mkCall {
  tool_name : string;
  arguments : option ToolArgs
}.

(** The [text] of the single content item. *)
Inductive Text : Type :=
(** [JSON.stringify(result, null, 2)] *)
| Stringified (r : OpResult)
| Plain (s : string).

(** [{ content: [{ type: 'text', text }], isError? }] *)
Record CallToolResult : Type := mkToolResult {
  text : Text;
  isError : option bool
}.

(** The [name] members of the descriptors the [ListTools] handler
    returns. *)
Definition tool_names : list string :=
  ["google_docs_create"; "google_docs_get"; "google_docs_update";
   "google_docs_list"; "google_docs_delete"; "google_docs_export";
   "google_docs_share"; "google_docs_search";
   "google_docs_verify_connection"].

(** [return { content: [{ type: 'text', text: JSON.stringify(result, null, 2) }] }] *)
Definition reply (r : OpResult) : M CallToolResult :=
  ret (mkToolResult (Stringified r) None).

(** The handler given to [setRequestHandler(CallToolRequestSchema, ...)].
    What it throws reaches the SDK, which answers with a protocol error;
    what it returns is the result of the call. *)
Definition callTool (googleDocs : GoogleDocsClient) (request : CallToolRequest)
    : M CallToolResult :=
  try_catch
    (let args := Js.param (arguments request) no_args in
     let name := tool_name request in
     if name =? "google_docs_create" then
       result <- createDocument googleDocs (arg_title args) (arg_content args) ;;
       reply result
     else if name =? "google_docs_get" then
       result <- getDocument googleDocs (arg_documentId args) ;;
       reply result
     else if name =? "google_docs_update" then
       result <- updateDocument googleDocs (arg_documentId args)
                   (arg_content args) (arg_replaceAll args) ;;
       reply result
     else if name =? "google_docs_list" then
       result <- listDocuments googleDocs (arg_pageSize args) (arg_pageToken args) ;;
       reply result
     else if name =? "google_docs_delete" then
       result <- deleteDocument googleDocs (arg_documentId args) ;;
       reply result
     else if name =? "google_docs_export" then
       result <- exportDocument googleDocs (arg_documentId args) (arg_mimeType args) ;;
       reply result
     else if name =? "google_docs_share" then
       result <- shareDocument googleDocs (arg_documentId args)
                   (arg_emailAddress args) (arg_role args) ;;
       reply result
     else if name =? "google_docs_search" then
       result <- searchDocuments googleDocs (arg_query args)
                   (arg_pageSize args) (arg_pageToken args) ;;
       reply result
     else if name =? "google_docs_verify_connection" then
       result <- verifyConnection googleDocs ;;
       reply result
     else
       E <- ask ;;
       throw (new_McpError E (MethodNotFound E) ("Unknown tool: " ++ name)))%string
    (fun error =>
       console_error ("Error executing tool " ++ tool_name request ++ ":") error ;;
       ret (mkToolResult (Plain ("Google Docs API error: " ++ message error))
              (Some true))).

(* ------------------------------------------------------------------ *)
(** ** The connectivity check (src/test-connection.ts) *)

(** [result.connected], read as a condition. *)
Definition result_connected (r : OpResult) : bool :=
  match r with
  | Connected _ _ _ => true
  | _ => false
  end.

(** [result.error?.code] *)
Definition result_error_code (r : OpResult) : option ErrCode :=
  match r with
  | NotConnected _ _ info => Some (info_code info)
  | _ => None
  end.

Definition cli_credentials_required : string :=
  "Either GOOGLE_APPLICATION_CREDENTIALS, GOOGLE_API_KEY, or OAuth credentials are required".

Definition cli_project_required : string :=
  "GOOGLE_CLOUD_PROJECT_ID environment variable is required".

(** The double-quote character. *)
Definition dquote : string := String (Ascii.ascii_of_nat 34) EmptyString.

Definition connection_successful : string := "✅ Connection successful!".

Definition connection_failed : string := "❌ Connection failed!".

Definition permission_failed : string :=
  "❌ Connection failed due to permission issues!".

(** The lines printed after the permission headline. *)
Definition permission_hint : list string :=
  [EmptyString; "This is likely because:";
   "1. The service account does not have the necessary permissions";
   "2. The Google Docs API is not enabled in your Google Cloud project";
   "3. The OAuth credentials might be invalid or expired";
   EmptyString; "To fix this:";
   "1. Make sure the Docs API is enabled: https://console.cloud.google.com/apis/library/docs.googleapis.com";
   "2. Grant the service account the necessary permissions (e.g., "
     ++ dquote ++ "Docs API User" ++ dquote ++ " role)";
   "3. If using OAuth, ensure your credentials are valid and have the correct scopes"].

Fixpoint console_lines (ls : list string) : M unit :=
  match ls with
  | [] => ret tt
  | l :: rest => console_log l ;; console_lines rest
  end.

(** [main]: the value returned is the argument of the [process.exit]
    call that ends the process. *)
Definition main : M Z :=
  console_log "Google Docs API Connection Test" ;;
  console_log "===============================" ;;
  try_catch
    (E <- ask ;;
     values <- (match parseArgs E with
                | inr v => ret v
                | inl e => throw e
                end) ;;
     let serviceAccountPath :=
       Js.or (credentials_path values) (GOOGLE_APPLICATION_CREDENTIALS (env E)) in
     let apiKey := Js.or (api_key values) (GOOGLE_API_KEY (env E)) in
     let projectId := Js.or (project_id values) (GOOGLE_CLOUD_PROJECT_ID (env E)) in
     let oauthClientId :=
       Js.or (oauth_client_id values) (GOOGLE_OAUTH_CLIENT_ID (env E)) in
     let oauthClientSecret :=
       Js.or (oauth_client_secret values) (GOOGLE_OAUTH_CLIENT_SECRET (env E)) in
     let oauthRefreshToken :=
       Js.or (oauth_refresh_token values) (GOOGLE_OAUTH_REFRESH_TOKEN (env E)) in
     let oauth :=
       Js.truthy oauthClientId && Js.truthy oauthClientSecret
       && Js.truthy oauthRefreshToken in
     when (negb (Js.truthy serviceAccountPath) && negb (Js.truthy apiKey)
           && negb oauth)
       (throw_Error cli_credentials_required) ;;
     when (negb (Js.truthy projectId))
       (throw_Error cli_project_required) ;;
     when (Js.truthy serviceAccountPath)
       (console_log ("Using credentials: " ++ Js.tpl serviceAccountPath)) ;;
     when (Js.truthy apiKey)
       (console_log ("Using API key: " ++ substring 0 4 (Js.the apiKey) ++ "...")) ;;
     when oauth
       (console_log ("Using OAuth credentials with client ID: "
                       ++ substring 0 4 (Js.the oauthClientId) ++ "...")) ;;
     console_log ("Using project ID: " ++ Js.tpl projectId) ;;
     console_log EmptyString ;;
     googleDocs <- constructor (mkOptions serviceAccountPath apiKey projectId
                                  oauthClientId oauthClientSecret oauthRefreshToken) ;;
     console_log "Testing connection..." ;;
     result <- verifyConnection googleDocs ;;
     console_log EmptyString ;;
     console_log "Connection Result:" ;;
     console_json result ;;
     if result_connected result then
       console_log EmptyString ;;
       console_log connection_successful ;;
       ret 0
     else
       console_log EmptyString ;;
       (if code_is_403 (result_error_code result) then
          console_log permission_failed ;;
          console_lines permission_hint
        else
          console_log connection_failed) ;;
       ret 1)%string
    (fun error =>
       console_error_message "Error:" (message error) ;;
       ret 1).

(** [main().catch(...)]: a rejection of [main] ends the process with 1. *)
Definition run_main : M Z :=
  try_catch main
    (fun error => console_error "Unhandled error:" error ;; ret 1).

(* ------------------------------------------------------------------ *)
(** ** Runs and concrete environments *)

(** The value a computation ends with, and the trace it leaves. *)
Definition outcome {A : Type} (m : M A) (E : Env) (t : Trace) : JsError + A :=
  fst (m E t).

Definition trace_after {A : Type} (m : M A) (E : Env) (t : Trace) : Trace :=
  snd (m E t).

(** The requests a run issues, in order. *)
Definition issued_by {A : Type} (m : M A) (E : Env) (t : Trace) : list Request :=
  skipn (length (issued t)) (issued (trace_after m E t)).

(** The requests of [rqs], issued in this order after [hist], all
    resolve. *)
Fixpoint resolves (E : Env) (hist rqs : list Request) : Prop :=
  match rqs with
  | [] => True
  | rq :: rest =>
      (exists d, remote E hist rq = inr d) /\ resolves E (hist ++ [rq]) rest
  end.

(** The nine operations of the client, as the dispatcher calls them. *)
Inductive Operation : Type :=
| OpCreate (title content : option string)
| OpGet (documentId : option string)
| OpUpdate (documentId content : option string) (replaceAll : option bool)
| OpList (pageSize : option Z) (pageToken : option string)
| OpDelete (documentId : option string)
| OpExport (documentId mimeType : option string)
| OpShare (documentId emailAddress role : option string)
| OpSearch (query : option string) (pageSize : option Z) (pageToken : option string)
| OpVerify.

Definition perform (this : GoogleDocsClient) (op : Operation) : M OpResult :=
  match op with
  | OpCreate title content => createDocument this title content
  | OpGet documentId => getDocument this documentId
  | OpUpdate documentId content replaceAll =>
      updateDocument this documentId content replaceAll
  | OpList pageSize pageToken => listDocuments this pageSize pageToken
  | OpDelete documentId => deleteDocument this documentId
  | OpExport documentId mimeType => exportDocument this documentId mimeType
  | OpShare documentId emailAddress role =>
      shareDocument this documentId emailAddress role
  | OpSearch query pageSize pageToken =>
      searchDocuments this query pageSize pageToken
  | OpVerify => verifyConnection this
  end.

(** The options [main] hands to the constructor. *)
Definition cli_options (values : CliValues) (E : Env) : Options :=
  mkOptions
    (Js.or (credentials_path values) (GOOGLE_APPLICATION_CREDENTIALS (env E)))
    (Js.or (api_key values) (GOOGLE_API_KEY (env E)))
    (Js.or (project_id values) (GOOGLE_CLOUD_PROJECT_ID (env E)))
    (Js.or (oauth_client_id values) (GOOGLE_OAUTH_CLIENT_ID (env E)))
    (Js.or (oauth_client_secret values) (GOOGLE_OAUTH_CLIENT_SECRET (env E)))
    (Js.or (oauth_refresh_token values) (GOOGLE_OAUTH_REFRESH_TOKEN (env E))).

Module Scenario.

Definition no_env : ProcessEnv := mkProcessEnv None None None None None None.

Definition no_values : CliValues := mkCliValues None None None None None None.

Definition no_options : Options := mkOptions None None None None None None.

Definition empty_doc : Document :=
  mkDocument (Some "doc-1") (Some "Notes")
    (Some (mkBody (Some [mkElement None (Some 1)]))).

Definition one_file : DriveFile :=
  mkFile (Some "doc-1") (Some "Notes") None None None.

(** A service on which every call resolves; [documents.get] answers
    [doc]. *)
Definition healthy (doc : Document) (hist : list Request) (rq : Request)
    : JsError + response rq :=
  match rq return JsError + response rq with
  | FilesCreate _ _ => inr one_file
  | DocumentsGet _ => inr doc
  | DocumentsBatchUpdate _ _ => inr tt
  | FilesList _ _ _ _ => inr (mkFileList (Some [one_file]) None)
  | FilesDelete _ => inr tt
  | FilesExport _ _ _ => inr []
  | PermissionsCreate _ _ _ _ => inr (mkPermission (Some "perm-1") (Some "user") None)
  end.

(** A service on which every call rejects with [e]. *)
Definition rejecting (e : JsError) (hist : list Request) (rq : Request)
    : JsError + response rq := inl e.

(** A V8-style stack text: the header and one frame. *)
Definition v8_stack (msg : string) : string :=
  "Error: " ++ msg ++ " at main (file:///app/dist/index.js:1:1)".

(** The message of the SDK's [McpError] for [MethodNotFound]. *)
Definition sdk_message (c : Z) (msg : string) : string :=
  "MCP error -32601: " ++ msg.

Definition mk (penv : ProcessEnv) (exists_ : string -> bool)
    (service : list Request -> forall rq : Request, JsError + response rq)
    (argv : JsError + CliValues) : Env :=
  mkEnv penv exists_ "2025-04-15T07:30:00.000Z" v8_stack service
    (fun _ => "AAAA") (-32601) sdk_message argv.

(** A process with a project id only in its environment. *)
Definition project_env : ProcessEnv :=
  mkProcessEnv (Some "my-project") None None None None None.

Definition api_key_client : GoogleDocsClient :=
  mkClient "my-project" (Some (ApiKeyAuth "AIza-test")).

(** A rejection without [details]: a socket failure. *)
Definition hang_up : JsError :=
  mkJsError "socket hang up" (Some (CodeStr "ECONNRESET")) None
    (Some (v8_stack "socket hang up")).

(** A rejection with a numeric status. *)
Definition forbidden : JsError :=
  mkJsError "The caller does not have permission" (Some (CodeNum 403)) None
    (Some (v8_stack "The caller does not have permission")).

End Scenario.

(** The one request of [verifyConnection]. *)
Definition verify_request : Request :=
  FilesList 1 None list_query "files(id, name)".

(** The console lines a run prints, in order. *)
Definition printed_by {A : Type} (m : M A) (E : Env) (t : Trace) : list ConsoleLine :=
  skipn (length (console t)) (console (trace_after m E t)).

(** What [verifyConnection] builds from a caught error. *)
Definition error_info (e : JsError) : ErrorInfo :=
  mkErrorInfo (message e)
    (match code e with
     | Some c => if truthy_code (code e) then c else CodeStr "UNKNOWN_ERROR"
     | None => CodeStr "UNKNOWN_ERROR"
     end)
    (if Js.truthy (details e) then details e else stack e).

(** The result each operation gives for a caught error [e]. *)
Definition failure_result (this : GoogleDocsClient) (E : Env) (op : Operation)
    (e : JsError) : OpResult :=
  match op with
  | OpDelete _ | OpShare _ _ _ => FailureResult (message e)
  | OpVerify => NotConnected (this_projectId this) (now E) (error_info e)
  | _ => ErrorResult (message e)
  end.

(** A run that returns [r] and turns the rejection of any of its calls
    into [failure_result]; the rejected call is then its last one. *)
Definition converts_failures (this : GoogleDocsClient) (op : Operation)
    (E : Env) (t : Trace) : Prop :=
  exists r,
    outcome (perform this op) E t = inr r
    /\ forall pre rq post e,
         issued_by (perform this op) E t = (pre ++ rq :: post)%list ->
         remote E (issued t ++ pre) rq = inl e ->
         post = [] /\ r = failure_result this E op e.

(** The lines [main] prints once it holds the result of the check. *)
Definition verdict (r : OpResult) : list ConsoleLine :=
  if result_connected r then [Log EmptyString; Log connection_successful]
  else
    Log EmptyString ::
    (if code_is_403 (result_error_code r)
     then Log permission_failed :: map Log permission_hint
     else [Log connection_failed]).

(* ------------------------------------------------------------------ *)
(** ** Further concrete inputs *)

Module Scenario3.

(** A fetched body of two blocks whose last block carries [endIndex: 0]. *)
Definition zero_end : Document :=
  mkDocument (Some "doc-1") (Some "Notes")
    (Some (mkBody (Some [mkElement None (Some 1); mkElement (Some 1) (Some 0)]))).

(** The same body, the last block without an [endIndex]. *)
Definition no_end : Document :=
  mkDocument (Some "doc-1") (Some "Notes")
    (Some (mkBody (Some [mkElement None (Some 1); mkElement (Some 1) None]))).

(** A body of two blocks that ends at index 12. *)
Definition two_blocks : Document :=
  mkDocument (Some "doc-1") (Some "Notes")
    (Some (mkBody (Some [mkElement None (Some 1); mkElement (Some 1) (Some 12)]))).

Definition env_of (doc : Document) : Env :=
  Scenario.mk Scenario.project_env (fun _ => false) (Scenario.healthy doc)
    (inr Scenario.no_values).

End Scenario3.

Module Scenario4.

(** An API key given as argument, nothing else anywhere. *)
Definition key_only : Options :=
  mkOptions None (Some "AIza-test") None None None None.

(** A key-file path and a project id, no API key. *)
Definition path_only : Options :=
  mkOptions (Some "/keys/missing.json") None (Some "my-project") None None None.

(** Every credential at once, with a project id. *)
Definition everything : Options :=
  mkOptions (Some "/keys/missing.json") (Some "AIza-test") (Some "my-project")
    (Some "client-id") (Some "client-secret") (Some "refresh-token").

(** OAuth credentials and a project id. *)
Definition oauth_only : Options :=
  mkOptions None None (Some "my-project")
    (Some "client-id") (Some "client-secret") (Some "refresh-token").

(** A process with an empty environment and no file on disk. *)
Definition bare : Env :=
  Scenario.mk Scenario.no_env (fun _ => false)
    (Scenario.healthy Scenario.empty_doc) (inr Scenario.no_values).

End Scenario4.

Module Scenario5.

(** A service that is down: every call is rejected with a socket error. *)
Definition down : Env :=
  Scenario.mk Scenario.project_env (fun _ => false)
    (Scenario.rejecting Scenario.hang_up) (inr Scenario.no_values).

(** What the connection check answers on [down]. *)
Definition not_connected : OpResult :=
  NotConnected "my-project" "2025-04-15T07:30:00.000Z"
    (mkErrorInfo "socket hang up" (CodeStr "ECONNRESET")
       (Some "Error: socket hang up at main (file:///app/dist/index.js:1:1)")).

End Scenario5.

Module Scenario9.

(** A command line that gives an API key and a project id. *)
Definition key_values : CliValues :=
  mkCliValues None (Some "AIza-test") (Some "my-project") None None None.

(** The check against a service that answers. *)
Definition reachable : Env :=
  Scenario.mk Scenario.no_env (fun _ => false)
    (Scenario.healthy Scenario.empty_doc) (inr key_values).

(** The check against a service that answers 403 to every call. *)
Definition refused : Env :=
  Scenario.mk Scenario.no_env (fun _ => false)
    (Scenario.rejecting Scenario.forbidden) (inr key_values).

(** The check with nothing configured. *)
Definition unconfigured : Env :=
  Scenario.mk Scenario.no_env (fun _ => false)
    (Scenario.healthy Scenario.empty_doc) (inr Scenario.no_values).

End Scenario9.

(* ------------------------------------------------------------------ *)
(** ** The tool catalogue and the start-up of the server (src/index.ts) *)

(** One member of [inputSchema.properties]. *)
Record ToolParam : Type := mkParameter {
  param_name : string;
  param_type : string;
  param_description : string
}.

(** A tool descriptor; [inputSchema.type] is ['object'] throughout, and
    [required] is absent from two descriptors. *)
Record Tool : Type := mkTool {
  td_name : string;
  td_description : string;
  td_properties : list ToolParam;
  td_required : option (list string)
}.

(** The [tools] array of the [ListToolsRequestSchema] handler. *)
Definition tools : list Tool :=
  [mkTool "google_docs_create" "Create a new Google Doc"
     [mkParameter "title" "string" "Title of the document";
      mkParameter "content" "string" "Initial content of the document (plain text)"]
     (Some ["title"]);
   mkTool "google_docs_get" "Get a Google Doc by ID"
     [mkParameter "documentId" "string" "ID of the document to retrieve"]
     (Some ["documentId"]);
   mkTool "google_docs_update" "Update a Google Doc with new content"
     [mkParameter "documentId" "string" "ID of the document to update";
      mkParameter "content" "string" "New content to add or replace (plain text)";
      mkParameter "replaceAll" "boolean"
        "Whether to replace all content (true) or append (false)"]
     (Some ["documentId"; "content"]);
   mkTool "google_docs_list" "List Google Docs accessible to the authenticated user"
     [mkParameter "pageSize" "number" "Number of documents to return (default: 10)";
      mkParameter "pageToken" "string" "Token for pagination"]
     None;
   mkTool "google_docs_delete" "Delete a Google Doc"
     [mkParameter "documentId" "string" "ID of the document to delete"]
     (Some ["documentId"]);
   mkTool "google_docs_export" "Export a Google Doc to different formats"
     [mkParameter "documentId" "string" "ID of the document to export";
      mkParameter "mimeType" "string"
        ("MIME type for export (e.g., " ++ dquote ++ "application/pdf" ++ dquote
           ++ ", " ++ dquote ++ "text/plain" ++ dquote ++ ")")]
     (Some ["documentId"]);
   mkTool "google_docs_share" "Share a Google Doc with specific users"
     [mkParameter "documentId" "string" "ID of the document to share";
      mkParameter "emailAddress" "string" "Email address to share with";
      mkParameter "role" "string" "Role to assign (reader, writer, commenter)"]
     (Some ["documentId"; "emailAddress"]);
   mkTool "google_docs_search" "Search for Google Docs by title or content"
     [mkParameter "query" "string" "Search query for document title or content";
      mkParameter "pageSize" "number" "Number of results to return (default: 10)";
      mkParameter "pageToken" "string" "Token for pagination"]
     (Some ["query"]);
   mkTool "google_docs_verify_connection"
     "Verify connection with Google Docs API and check credentials"
     [] None].

(** The constructor of [GoogleDocsServer]: it reads the credentials the
    module resolved, prints them and builds the client; registering the
    handlers has no effect of its own. *)
Definition GoogleDocsServer
    (serviceAccountPath apiKey projectId
     oauthClientId oauthClientSecret oauthRefreshToken : option string)
    : M GoogleDocsClient :=
  (when (Js.truthy serviceAccountPath)
     (console_log ("Using service account: " ++ Js.tpl serviceAccountPath)) ;;
   when (Js.truthy apiKey)
     (console_log ("Using API key: " ++ substring 0 4 (Js.the apiKey) ++ "...")) ;;
   when (Js.truthy oauthClientId && Js.truthy oauthClientSecret
         && Js.truthy oauthRefreshToken)
     (console_log ("Using OAuth credentials with client ID: "
                     ++ substring 0 4 (Js.the oauthClientId) ++ "...")) ;;
   console_log ("Using project ID: " ++ Js.tpl projectId) ;;
   googleDocs <- constructor (mkOptions serviceAccountPath apiKey projectId
                                oauthClientId oauthClientSecret oauthRefreshToken) ;;
   ret googleDocs)%string.

(** The module body of src/index.ts up to [new GoogleDocsServer()]: what
    it throws ends the process; the value is the client the handlers use. *)
Definition index_startup : M GoogleDocsClient :=
  (E <- ask ;;
   values <- (match parseArgs E with
              | inr v => ret v
              | inl e => throw e
              end) ;;
   let serviceAccountPath :=
     Js.or (credentials_path values) (GOOGLE_APPLICATION_CREDENTIALS (env E)) in
   let apiKey := Js.or (api_key values) (GOOGLE_API_KEY (env E)) in
   let projectId := Js.or (project_id values) (GOOGLE_CLOUD_PROJECT_ID (env E)) in
   let oauthClientId :=
     Js.or (oauth_client_id values) (GOOGLE_OAUTH_CLIENT_ID (env E)) in
   let oauthClientSecret :=
     Js.or (oauth_client_secret values) (GOOGLE_OAUTH_CLIENT_SECRET (env E)) in
   let oauthRefreshToken :=
     Js.or (oauth_refresh_token values) (GOOGLE_OAUTH_REFRESH_TOKEN (env E)) in
   when (negb (Js.truthy serviceAccountPath) && negb (Js.truthy apiKey)
         && negb (Js.truthy oauthClientId && Js.truthy oauthClientSecret
                  && Js.truthy oauthRefreshToken))
     (throw_Error cli_credentials_required) ;;
   when (negb (Js.truthy projectId))
     (throw_Error cli_project_required) ;;
   GoogleDocsServer serviceAccountPath apiKey projectId
     oauthClientId oauthClientSecret oauthRefreshToken)%string.

(** The operation behind each name of the [switch], with the arguments in
    the order of the method's parameters. *)
Definition operation_of (name : string) (args : ToolArgs) : option Operation :=
  (if name =? "google_docs_create" then
     Some (OpCreate (arg_title args) (arg_content args))
   else if name =? "google_docs_get" then
     Some (OpGet (arg_documentId args))
   else if name =? "google_docs_update" then
     Some (OpUpdate (arg_documentId args) (arg_content args) (arg_replaceAll args))
   else if name =? "google_docs_list" then
     Some (OpList (arg_pageSize args) (arg_pageToken args))
   else if name =? "google_docs_delete" then
     Some (OpDelete (arg_documentId args))
   else if name =? "google_docs_export" then
     Some (OpExport (arg_documentId args) (arg_mimeType args))
   else if name =? "google_docs_share" then
     Some (OpShare (arg_documentId args) (arg_emailAddress args) (arg_role args))
   else if name =? "google_docs_search" then
     Some (OpSearch (arg_query args) (arg_pageSize args) (arg_pageToken args))
   else if name =? "google_docs_verify_connection" then
     Some OpVerify
   else None)%string.

(** The operations that only read. *)
Definition reads_only (op : Operation) : bool :=
  match op with
  | OpGet _ | OpList _ _ | OpExport _ _ | OpSearch _ _ _ | OpVerify => true
  | OpCreate _ _ | OpUpdate _ _ _ | OpDelete _ | OpShare _ _ _ => false
  end.

(** A request that changes what the service stores. *)
Definition mutates (rq : Request) : bool :=
  match rq with
  | FilesCreate _ _ | DocumentsBatchUpdate _ _ | FilesDelete _
  | PermissionsCreate _ _ _ _ => true
  | DocumentsGet _ | FilesList _ _ _ _ | FilesExport _ _ _ => false
  end.

(** A delete of a content range, as an element of a batch. *)
Definition is_delete (rq : Request) : bool :=
  match rq with
  | DocumentsBatchUpdate _ requests =>
      existsb (fun r => match r with
                        | DeleteContentRange _ _ => true
                        | InsertText _ _ => false
                        end) requests
  | _ => false
  end.

Module Scenario11.

(** A process whose environment holds an API key and a project id, and
    whose command line gives another API key. *)
Definition both_keys : Env :=
  Scenario.mk
    (mkProcessEnv (Some "env-project") (Some "env-key") None None None None)
    (fun _ => false) (Scenario.healthy Scenario.empty_doc)
    (inr (mkCliValues None (Some "flag-key") None None None None)).


(** A service that answers [file] to a create, [doc] to a fetch and
    [batch requests] to a batch update. *)
Definition service (file : DriveFile) (doc : Document)
    (batch : list DocsRequest -> JsError + unit)
    (hist : list Request) (rq : Request) : JsError + response rq :=
  match rq return JsError + response rq with
  | FilesCreate _ _ => inr file
  | DocumentsGet _ => inr doc
  | DocumentsBatchUpdate _ requests => batch requests
  | FilesList _ _ _ _ => inr (mkFileList (Some [file]) None)
  | FilesDelete _ => inr tt
  | FilesExport _ _ _ => inr []
  | PermissionsCreate _ _ _ _ => inr (mkPermission (Some "perm-1") (Some "user") None)
  end.

(** The service accepts the fetch and the delete of a replace, then
    rejects the insert. *)
Definition env_insert_rejected : Env :=
  Scenario.mk Scenario.project_env (fun _ => false)
    (service Scenario.one_file Scenario3.two_blocks
       (fun requests =>
          match requests with
          | [InsertText _ _] => inl Scenario.hang_up
          | _ => inr tt
          end))
    (inr Scenario.no_values).

(** A create call answered without an [id]. *)
Definition env_no_id : Env :=
  Scenario.mk Scenario.project_env (fun _ => false)
    (service (mkFile None (Some "Notes") None None None) Scenario.empty_doc
       (fun _ => inr tt))
    (inr Scenario.no_values).

(** A command line that names a key file that does not exist. *)
Definition missing_file : Env :=
  Scenario.mk Scenario.no_env (fun _ => false)
    (Scenario.healthy Scenario.empty_doc)
    (inr (mkCliValues (Some "/keys/missing.json") None (Some "my-project")
            None None None)).

(** The arguments of a fetch. *)
Definition get_args : ToolArgs :=
  mkArgs None None (Some "doc-1") None None None None None None None.

End Scenario11.


Module Scenario12.

(** The rejection shown in the testing guide of the repository: a
    permission failure whose [code] is the string ["403"]. *)
Definition insufficient_scopes : JsError :=
  mkJsError "Request had insufficient authentication scopes."
    (Some (CodeStr "403")) None
    (Some (Scenario.v8_stack "Request had insufficient authentication scopes.")).

(** The connectivity check against a service that answers so. *)
Definition scopes_refused : Env :=
  Scenario.mk Scenario.no_env (fun _ => false)
    (Scenario.rejecting insufficient_scopes) (inr Scenario9.key_values).

End Scenario12.

(* ------------------------------------------------------------------ *)
(** * Properties *)

(** ** Equations of the program monad *)

Section MonadFacts.

Context {A B : Type}.

Lemma bind_ret (a : A) (k : A -> M B) E t :
  bind (ret a) k E t = k a E t.
Proof. reflexivity. Qed.

Lemma bind_throw (e : JsError) (k : A -> M B) E t :
  bind (throw e) k E t = (inl e, t).
Proof. reflexivity. Qed.

Lemma bind_inr (m : M A) (k : A -> M B) E t a t' :
  m E t = (inr a, t') -> bind m k E t = k a E t'.
Proof. intros H. unfold bind. now rewrite H. Qed.

Lemma bind_inl (m : M A) (k : A -> M B) E t e t' :
  m E t = (inl e, t') -> bind m k E t = (inl e, t').
Proof. intros H. unfold bind. now rewrite H. Qed.

Lemma try_catch_inr (m : M A) (h : JsError -> M A) E t a t' :
  m E t = (inr a, t') -> try_catch m h E t = (inr a, t').
Proof. intros H. unfold try_catch. now rewrite H. Qed.

Lemma try_catch_inl (m : M A) (h : JsError -> M A) E t e t' :
  m E t = (inl e, t') -> try_catch m h E t = h e E t'.
Proof. intros H. unfold try_catch. now rewrite H. Qed.

End MonadFacts.

(** A resolved call hands its data to the continuation. *)
Lemma call_resolved {B : Type} (rq : Request) (k : response rq -> M B) E t d :
  remote E (issued t) rq = inr d ->
  bind (call rq) k E t = k d E (mkTrace (issued t ++ [rq]) (console t)).
Proof. intros H. unfold bind, call. now rewrite H. Qed.

(** A rejected call throws after it was recorded. *)
Lemma call_rejected {B : Type} (rq : Request) (k : response rq -> M B) E t e :
  remote E (issued t) rq = inl e ->
  bind (call rq) k E t = (inl e, mkTrace (issued t ++ [rq]) (console t)).
Proof. intros H. unfold bind, call. now rewrite H. Qed.

(** Unfolds the monad down to the oracle. *)
Ltac run :=
  unfold outcome, trace_after, catch_error, catch_failure, reply, when, throw_Error;
  unfold try_catch, bind, ret, throw, ask, call, console_log, console_error,
    console_error_message, console_json;
  cbn [fst snd issued console].

(** Normal form of the histories: one list appended to the start. *)
Ltac tidy :=
  cbn [fst snd issued console]; rewrite <- ?app_assoc; cbn [app].

(** Case analysis on the next answer of the oracle in the goal. *)
Ltac answer :=
  match goal with
  | |- context [remote ?E ?h ?rq] =>
      let d := fresh "d" in
      let e := fresh "e" in
      let H := fresh "Hcall" in
      destruct (remote E h rq) as [e | d] eqn:H; cbn [fst snd issued console]
  end.

(* ------------------------------------------------------------------ *)
(** ** The dispatcher *)

(** A name outside [tool_names] reaches the [default] branch. *)
Lemma callTool_default (this : GoogleDocsClient) (name : string)
    (args : option ToolArgs) (E : Env) (t : Trace) :
  ~ In name tool_names ->
  callTool this (mkCall name args) E t =
    (inr (mkToolResult
            (Plain ("Google Docs API error: "
                      ++ mcp_message E (MethodNotFound E) ("Unknown tool: " ++ name)))
            (Some true)),
     mkTrace (issued t)
       (console t ++
          [LogError ("Error executing tool " ++ name ++ ":")
             (new_McpError E (MethodNotFound E) ("Unknown tool: " ++ name))])).
Proof.
  intros Hout. unfold callTool. cbn [tool_name arguments].
  repeat match goal with
  | |- context [String.eqb name ?s] =>
      destruct (String.eqb_spec name s) as [-> | _];
      [ exfalso; apply Hout; unfold tool_names; simpl; tauto | ]
  end.
  reflexivity.
Qed.

(** C1, at the unregistered name [google_docs_rename]: the handler does
    not throw the [MethodNotFound] error it builds; it returns it as a
    tool result with [isError: true], whatever the client, the arguments
    and the environment. *)
Theorem callTool_unknown_tool_is_error_result
    (this : GoogleDocsClient) (args : option ToolArgs) (E : Env) (t : Trace) :
  outcome (callTool this (mkCall "google_docs_rename" args)) E t =
    inr (mkToolResult
           (Plain ("Google Docs API error: "
                     ++ mcp_message E (MethodNotFound E)
                          "Unknown tool: google_docs_rename"))
           (Some true)).
Proof.
  unfold outcome. rewrite callTool_default.
  - reflexivity.
  - unfold tool_names. simpl. intuition discriminate.
Qed.

(* ------------------------------------------------------------------ *)
(** ** Search *)

(** C8: [searchDocuments] issues exactly one list request; its filter is
    the mime-type condition and-ed with (name contains query or fullText
    contains query), the query text placed between the quotes as it is,
    and its page size is 10 when none is given. *)
Theorem searchDocuments_request (this : GoogleDocsClient) (query : string)
    (pageSize : option Z) (pageToken : option string) (E : Env) (t : Trace) :
  issued (trace_after (searchDocuments this (Some query) pageSize pageToken) E t) =
    (issued t ++
     [FilesList (match pageSize with Some n => n | None => 10 end) pageToken
        ("mimeType='application/vnd.google-apps.document' and (name contains '"
           ++ query ++ "' or fullText contains '" ++ query ++ "')")
        list_fields])%list.
Proof.
  unfold searchDocuments. run. answer; destruct pageSize; reflexivity.
Qed.

(** A query that holds a quote closes the literal of the filter. *)
Example searchDocuments_quote :
  issued (trace_after
            (searchDocuments Scenario.api_key_client (Some "a' or name contains 'b")
               None None)
            (Scenario.mk Scenario.no_env (fun _ => false)
               (Scenario.healthy Scenario.empty_doc) (inr Scenario.no_values))
            start) =
    [FilesList 10 None
       "mimeType='application/vnd.google-apps.document' and (name contains 'a' or name contains 'b' or fullText contains 'a' or name contains 'b')"
       list_fields].
Proof. reflexivity. Qed.

(* ------------------------------------------------------------------ *)
(** ** Lists of requests *)

Lemma skipn_issued {A : Type} (l new : list A) :
  skipn (length l) (l ++ new) = new.
Proof. induction l as [| x l IH]; [reflexivity | exact IH]. Qed.

Lemma skipn_same {A : Type} (l : list A) : skipn (length l) l = [].
Proof. induction l as [| x l IH]; [reflexivity | exact IH]. Qed.

Lemma last_of_blocks {A : Type} (front : list A) (x : A) :
  nth_error (front ++ [x]) (length (front ++ [x]) - 1) = Some x.
Proof.
  rewrite length_app. cbn [length].
  replace (length front + 1 - 1)%nat with (length front) by lia.
  rewrite nth_error_app2 by lia.
  now rewrite Nat.sub_diag.
Qed.

Lemma clear_request_last (front : list StructuralElement) (x : StructuralElement) :
  clear_request (front ++ [x]) =
    ret [DeleteContentRange 1 (Js.or_num (endIndex x) 1 - 1)].
Proof. unfold clear_request. now rewrite last_of_blocks. Qed.

Lemma several_blocks {A : Type} (front : list A) (x : A) :
  front <> [] -> (1 <? Z.of_nat (length (front ++ [x]))) = true.
Proof.
  intros Hne. apply Z.ltb_lt. rewrite length_app. cbn [length].
  destruct front; [congruence | cbn [length]; lia].
Qed.

(* ------------------------------------------------------------------ *)
(** ** Creating a document *)

(** C10: [createDocument] sends the insert only for truthy content and a
    truthy id in the answer of the create call; with the empty string as
    content it runs exactly as with no content: no insert is issued, and
    when the create and the fetch resolve the created document is
    returned. *)
Theorem createDocument_empty_content (this : GoogleDocsClient)
    (title : option string) (E : Env) (t : Trace) :
  let create := FilesCreate title document_mime in
  (forall content d r,
      In (DocumentsBatchUpdate d r)
         (issued_by (createDocument this title content) E t) ->
      (exists c, content = Some c /\ c <> EmptyString) /\
      exists f, remote E (issued t) create = inr f
                /\ Js.truthy (file_id f) = true
                /\ d = file_id f /\ r = [InsertText 1 content])
  /\ createDocument this title (Some EmptyString) E t
     = createDocument this title None E t
  /\ (forall d r,
        ~ In (DocumentsBatchUpdate d r)
            (issued_by (createDocument this title (Some EmptyString)) E t))
  /\ (forall f doc,
        let get := DocumentsGet (Some (Js.or_default (file_id f) EmptyString)) in
        remote E (issued t) create = inr f ->
        remote E (issued t ++ [create]) get = inr doc ->
        outcome (createDocument this title (Some EmptyString)) E t
          = inr (Created (file_id f) title
                   ("https://docs.google.com/document/d/" ++ Js.tpl (file_id f)
                      ++ "/edit") doc)
        /\ issued_by (createDocument this title (Some EmptyString)) E t
           = [create; get]).
Proof.
  intros create.
  assert (Honly : forall content d r,
      In (DocumentsBatchUpdate d r)
         (issued_by (createDocument this title content) E t) ->
      Js.truthy content = true /\
      exists f, remote E (issued t) create = inr f
                /\ Js.truthy (file_id f) = true
                /\ d = file_id f /\ r = [InsertText 1 content]).
  { intros content d r. unfold issued_by, createDocument, create. run.
    destruct (remote E (issued t) (FilesCreate title document_mime))
      as [e | f] eqn:Hcreate; cbn [fst snd issued console].
    - rewrite skipn_issued. cbn [In]. intros [H | []]. discriminate H.
    - destruct (Js.truthy content) eqn:Hc; cbn [andb].
      + destruct (Js.truthy (file_id f)) eqn:Hid.
        * unfold nonempty, convertContentToRequests. cbn [length Z.of_nat Z.ltb Z.compare].
          cbn [fst snd issued console].
          repeat (answer; cbn [fst snd issued console]);
            rewrite <- ?app_assoc; rewrite skipn_issued; cbn [In app];
            intros Hin;
            repeat match goal with
            | H : _ \/ _ |- _ => destruct H as [H | H]
            | H : False |- _ => destruct H
            | H : DocumentsBatchUpdate _ _ = DocumentsBatchUpdate _ _ |- _ =>
                injection H as <- <-
            | H : _ = DocumentsBatchUpdate _ _ |- _ => discriminate H
            end;
            (split; [reflexivity | exists f; auto]).
        * answer; rewrite <- ?app_assoc; rewrite skipn_issued; cbn [In app];
            intros Hin; intuition discriminate.
      + answer; rewrite <- ?app_assoc; rewrite skipn_issued; cbn [In app];
          intros Hin; intuition discriminate. }
  split; [| split; [| split]].
  - intros content d r Hin. destruct (Honly content d r Hin) as [Hc Hf].
    split; [| exact Hf].
    destruct content as [[| a c] |]; try discriminate Hc.
    eexists. split; [reflexivity | discriminate].
  - reflexivity.
  - intros d r Hin. destruct (Honly _ d r Hin) as [Hc _]. discriminate Hc.
  - intros f doc get Hcreate Hget. unfold issued_by, createDocument, outcome. run.
    fold create. rewrite Hcreate. cbn [fst snd issued console andb Js.truthy Js.truthy_string].
    fold get. rewrite Hget. cbn [fst snd issued console].
    split; [reflexivity |].
    rewrite <- app_assoc. now rewrite skipn_issued.
Qed.

(* ------------------------------------------------------------------ *)
(** ** Replacing the content of a document *)

(** C3, as stated, fails where the last block has no usable [endIndex]:
    for [endIndex: 0] the deleted range ends at 0, not at 0 - 1, and for a
    missing [endIndex] a delete up to 0 is still issued. *)
Lemma updateDocument_range_counterexample :
  let run doc :=
    issued_by (updateDocument Scenario.api_key_client (Some "doc-1") (Some "new")
                 (Some true))
      (Scenario3.env_of doc) start in
  (In (DocumentsBatchUpdate (Some "doc-1") [DeleteContentRange 1 0])
      (run Scenario3.zero_end)
   /\ ~ In (DocumentsBatchUpdate (Some "doc-1") [DeleteContentRange 1 (0 - 1)])
        (run Scenario3.zero_end))
  /\ In (DocumentsBatchUpdate (Some "doc-1") [DeleteContentRange 1 0])
       (run Scenario3.no_end).
Proof.
  cbv zeta. vm_compute.
  repeat split; try tauto.
  intros H.
  repeat match goal with
  | H : _ \/ _ |- _ => destruct H as [H | H]
  | H : False |- _ => destruct H
  | H : _ = _ |- _ => discriminate H
  end.
Qed.

(** C3, amended: with [replaceAll = true], the calls resolving, a fetched
    body of more than one block makes the operation issue the fetch, one
    delete of the range from 1 to [e - 1], the insert of the new content
    at index 1 and the final fetch, where [e] is the [endIndex] of the
    last block, or 1 when that is missing or zero; a body of exactly one
    block makes it issue the fetch, the insert and the final fetch; in
    both cases the result is the document of the final fetch. *)
Theorem updateDocument_replaceAll (this : GoogleDocsClient)
    (documentId content : option string) (E : Env) (t : Trace)
    (doc : Document) (blocks : list StructuralElement) :
  let get := DocumentsGet documentId in
  let insert := DocumentsBatchUpdate documentId [InsertText 1 content] in
  let update := updateDocument this documentId content (Some true) in
  remote E (issued t) get = inr doc ->
  body_content doc = Some blocks ->
  (forall front lastBlock,
      blocks = (front ++ [lastBlock])%list -> front <> [] ->
      let delete :=
        DocumentsBatchUpdate documentId
          [DeleteContentRange 1 (Js.or_num (endIndex lastBlock) 1 - 1)] in
      resolves E (issued t ++ [get]) [delete; insert; get] ->
      issued_by update E t = [get; delete; insert; get]
      /\ (exists final,
             remote E (issued t ++ [get; delete; insert]) get = inr final
             /\ outcome update E t = inr (DocumentData final))
      /\ (forall e, endIndex lastBlock = Some e -> e <> 0 ->
             delete = DocumentsBatchUpdate documentId [DeleteContentRange 1 (e - 1)]))
  /\ (forall block,
        blocks = [block] ->
        resolves E (issued t ++ [get]) [insert; get] ->
        issued_by update E t = [get; insert; get]
        /\ exists final,
             remote E (issued t ++ [get; insert]) get = inr final
             /\ outcome update E t = inr (DocumentData final)).
Proof.
  intros get insert update Hget Hbody. split.
  - intros front lastBlock -> Hfront delete Hres.
    cbn [resolves] in Hres. rewrite <- !app_assoc in Hres. cbn [app] in Hres.
    destruct Hres as ([[] Hdel] & [[] Hins] & [final Hfinal] & _).
    assert (Hrun : update E t =
              (inr (DocumentData final),
               mkTrace (issued t ++ [get; delete; insert; get]) (console t))).
    { unfold update, updateDocument. run. cbn [Js.param].
      fold get. rewrite Hget. cbn [fst snd issued console].
      rewrite Hbody, several_blocks, clear_request_last by assumption.
      run. fold delete. rewrite Hdel.
      unfold nonempty, convertContentToRequests.
      cbn [length Z.of_nat Z.ltb Z.compare Pos.of_succ_nat]. tidy.
      fold insert. rewrite Hins. tidy. rewrite Hfinal. tidy. reflexivity. }
    split; [| split].
    + unfold issued_by, trace_after. rewrite Hrun. cbn [snd issued].
      now rewrite skipn_issued.
    + exists final. split; [exact Hfinal |].
      unfold outcome. now rewrite Hrun.
    + intros e He Hnz. unfold delete. rewrite He. unfold Js.or_num.
      destruct (Z.eqb_spec e 0); [contradiction | reflexivity].
  - intros block -> Hres.
    cbn [resolves] in Hres. rewrite <- !app_assoc in Hres. cbn [app] in Hres.
    destruct Hres as ([[] Hins] & [final Hfinal] & _).
    assert (Hrun : update E t =
              (inr (DocumentData final),
               mkTrace (issued t ++ [get; insert; get]) (console t))).
    { unfold update, updateDocument. run. cbn [Js.param].
      fold get. rewrite Hget. cbn [fst snd issued console].
      rewrite Hbody. cbn [length Z.of_nat Z.ltb Z.compare Pos.of_succ_nat Pos.compare Pos.compare_cont].
      cbv beta iota. tidy.
      unfold nonempty, convertContentToRequests.
      cbn [length Z.of_nat Z.ltb Z.compare Pos.of_succ_nat]. tidy.
      fold insert. rewrite Hins. tidy. rewrite Hfinal. tidy. reflexivity. }
    split.
    + unfold issued_by, trace_after. rewrite Hrun. cbn [snd issued].
      now rewrite skipn_issued.
    + exists final. split; [exact Hfinal |].
      unfold outcome. now rewrite Hrun.
Qed.

(* ------------------------------------------------------------------ *)
(** ** Construction of the client *)

(** The constructor, branch by branch. *)
Lemma constructor_run (options : Options) (E : Env) (t : Trace) :
  let project := resolved_project options E in
  let key := resolved_key options E in
  let path := resolved_path options E in
  let '(cid, secret, token) := resolved_oauth options E in
  let built auth line :=
    (inr (mkClient project (Some auth)),
     mkTrace (issued t)
       (console t ++ [Log line; Log "Google Docs client initialized"])) in
  constructor options E t =
    if negb (Js.truthy_string project)
    then (inl (new_Error E project_required), t)
    else if Js.truthy key
    then built (ApiKeyAuth (Js.the key)) "Using API key authentication"
    else if Js.truthy path
    then if existsSync E (Js.the path)
         then built (GoogleAuth (Js.the path) auth_scopes)
                "Using service account authentication"
         else (inl (new_Error E (key_file_not_found path)), t)
    else if Js.truthy cid && Js.truthy secret && Js.truthy token
    then built (OAuth2 (Js.the cid) (Js.the secret) (Js.the token))
           "Using OAuth2 authentication"
    else (inl (new_Error E credentials_required), t).
Proof.
  unfold constructor. run.
  destruct (resolved_oauth options E) as [[cid secret] token].
  destruct (Js.truthy_string (resolved_project options E)); cbn [negb]; [| reflexivity].
  destruct (Js.truthy (resolved_key options E)); cbn [negb andb].
  - run. tidy. reflexivity.
  - destruct (Js.truthy (resolved_path options E)); cbn [negb andb].
    + destruct (existsSync E (Js.the (resolved_path options E))); cbn [negb].
      * run. tidy. reflexivity.
      * reflexivity.
    + destruct (Js.truthy cid && Js.truthy secret && Js.truthy token); cbn [negb].
      * run. tidy. reflexivity.
      * reflexivity.
Qed.

(** The constructor issues no request, whatever its outcome. *)
Lemma constructor_offline (options : Options) (E : Env) (t : Trace) :
  issued (trace_after (constructor options) E t) = issued t.
Proof.
  unfold trace_after. pose proof (constructor_run options E t) as H.
  cbv zeta in H. destruct (resolved_oauth options E) as [[cid secret] token].
  rewrite H.
  repeat match goal with
  | |- context [if ?c then _ else _] => destruct c
  end; reflexivity.
Qed.

(** With no credential and no project id anywhere the constructor throws
    before it prints or sends anything. *)
Example constructor_nothing_given :
  constructor Scenario.no_options Scenario4.bare start
  = (inl (new_Error Scenario4.bare project_required), start).
Proof. reflexivity. Qed.

(** C4, as stated, fails without a project id (an API key is present and
    no strategy is selected) and for a key-file path with no file behind
    it (the service-account branch ends in an error). *)
Lemma constructor_selection_counterexample :
  (Js.truthy (resolved_key Scenario4.key_only Scenario4.bare) = true
   /\ outcome (constructor Scenario4.key_only) Scenario4.bare start
      = inl (new_Error Scenario4.bare project_required))
  /\ (Js.truthy (resolved_key Scenario4.path_only Scenario4.bare) = false
      /\ Js.truthy (resolved_path Scenario4.path_only Scenario4.bare) = true
      /\ outcome (constructor Scenario4.path_only) Scenario4.bare start
         = inl (new_Error Scenario4.bare
                  (key_file_not_found (Some "/keys/missing.json")))).
Proof. repeat split. Qed.

(** C4, amended: without a project id the constructor throws the
    project-id error; with one, it takes the first matching credential:
    an API key gives the API-key client whatever else is present;
    otherwise a key-file path gives the service-account client when the
    file exists and the file-not-found error when it does not; otherwise
    a complete OAuth triple gives the OAuth2 client; otherwise
    construction throws the credentials error.  No request is issued in
    any case. *)
Theorem constructor_first_match (options : Options) (E : Env) (t : Trace) :
  let project := resolved_project options E in
  let key := resolved_key options E in
  let path := resolved_path options E in
  let oauth := resolved_oauth options E in
  let built := outcome (constructor options) E t in
  (Js.truthy_string project = false ->
     built = inl (new_Error E project_required))
  /\ (Js.truthy_string project = true ->
      (Js.truthy key = true ->
         built = inr (mkClient project (Some (ApiKeyAuth (Js.the key)))))
      /\ (Js.truthy key = false -> Js.truthy path = true ->
            built =
              if existsSync E (Js.the path)
              then inr (mkClient project
                          (Some (GoogleAuth (Js.the path) auth_scopes)))
              else inl (new_Error E (key_file_not_found path)))
      /\ (Js.truthy key = false -> Js.truthy path = false ->
            oauth_complete oauth = true ->
            built =
              inr (mkClient project
                     (Some (OAuth2 (Js.the (fst (fst oauth)))
                              (Js.the (snd (fst oauth))) (Js.the (snd oauth))))))
      /\ (Js.truthy key = false -> Js.truthy path = false ->
            oauth_complete oauth = false ->
            built = inl (new_Error E credentials_required)))
  /\ issued (trace_after (constructor options) E t) = issued t.
Proof.
  intros project key path oauth built.
  pose proof (constructor_run options E t) as H. cbv zeta in H.
  unfold built, outcome, oauth, oauth_complete.
  destruct (resolved_oauth options E) as [[cid secret] token].
  fold project key path in H. rewrite H. cbn [fst snd].
  split; [| split].
  - intros ->. reflexivity.
  - intros ->. cbn [negb]. repeat split.
    + intros ->. reflexivity.
    + intros -> ->. destruct (existsSync E (Js.the path)); reflexivity.
    + intros -> -> ->. reflexivity.
    + intros -> -> ->. reflexivity.
  - apply constructor_offline.
Qed.

(** C7, as stated, fails when an API key is present as well: the path is
    never looked at and construction succeeds. *)
Lemma constructor_missing_file_counterexample :
  resolved_path Scenario4.everything Scenario4.bare = Some "/keys/missing.json"
  /\ existsSync Scenario4.bare "/keys/missing.json" = false
  /\ outcome (constructor Scenario4.everything) Scenario4.bare start
     = inr (mkClient "my-project" (Some (ApiKeyAuth "AIza-test"))).
Proof. repeat split. Qed.

(** C7, amended: with a project id present and no API key, a key-file
    path with no file behind it makes construction throw an error whose
    message ends with that path; nothing is sent to the remote service. *)
Theorem constructor_missing_key_file (options : Options) (E : Env) (t : Trace)
    (path : string) :
  Js.truthy_string (resolved_project options E) = true ->
  Js.truthy (resolved_key options E) = false ->
  resolved_path options E = Some path ->
  path <> EmptyString ->
  existsSync E path = false ->
  exists e,
    outcome (constructor options) E t = inl e
    /\ message e = "Service account key file not found at: " ++ path
    /\ issued (trace_after (constructor options) E t) = issued t.
Proof.
  intros Hproject Hkey Hpath Hne Hmissing.
  exists (new_Error E (key_file_not_found (Some path))). split; [| split].
  - pose proof (constructor_run options E t) as H. cbv zeta in H.
    destruct (resolved_oauth options E) as [[cid secret] token].
    unfold outcome. rewrite H, Hproject, Hkey, Hpath. cbn [negb Js.the].
    rewrite Hmissing. destruct path; [congruence | reflexivity].
  - reflexivity.
  - apply constructor_offline.
Qed.

(* ------------------------------------------------------------------ *)
(** ** Failures of remote calls *)

(** Splits [l = pre ++ rq :: post] for a list [l] of known length. *)
Ltac positions H :=
  match type of H with
  | [] = (?pre ++ _ :: _)%list =>
      destruct pre; discriminate H
  | (_ :: _) = (?pre ++ _ :: _)%list =>
      let p := fresh "p" in
      destruct pre as [| p pre];
      [ cbn [app] in H; injection H as <- <-
      | cbn [app] in H;
        let H' := fresh "Hrest" in
        injection H as <- H'; positions H' ]
  end.

(** Compares the rejection [Hr] with what is known of the oracle. *)
Ltac confront Hr :=
  cbn [app] in Hr; rewrite ?app_nil_r in Hr;
  match goal with
  | Hc : remote _ _ _ = _ |- _ =>
      rewrite Hc in Hr;
      first [ discriminate Hr | injection Hr as <-; split; reflexivity ]
  end.

(** Settles one path of an operation. *)
Ltac settle :=
  tidy; eexists; split; [reflexivity |];
  let pre := fresh "pre" in
  let rq := fresh "rq" in
  let post := fresh "post" in
  let e := fresh "err" in
  let Hl := fresh "Hl" in
  let Hr := fresh "Hr" in
  intros pre rq post e Hl Hr;
  rewrite ?skipn_issued, ?skipn_same in Hl;
  positions Hl; confront Hr.

Lemma getDocument_converts this documentId E t :
  converts_failures this (OpGet documentId) E t.
Proof.
  unfold converts_failures, issued_by, perform, getDocument. run.
  answer; settle.
Qed.

Lemma listDocuments_converts this pageSize pageToken E t :
  converts_failures this (OpList pageSize pageToken) E t.
Proof.
  unfold converts_failures, issued_by, perform, listDocuments. run.
  answer; settle.
Qed.

Lemma deleteDocument_converts this documentId E t :
  converts_failures this (OpDelete documentId) E t.
Proof.
  unfold converts_failures, issued_by, perform, deleteDocument. run.
  answer; settle.
Qed.

Lemma exportDocument_converts this documentId mimeType E t :
  converts_failures this (OpExport documentId mimeType) E t.
Proof.
  unfold converts_failures, issued_by, perform, exportDocument. run.
  answer; settle.
Qed.

Lemma shareDocument_converts this documentId emailAddress role E t :
  converts_failures this (OpShare documentId emailAddress role) E t.
Proof.
  unfold converts_failures, issued_by, perform, shareDocument. run.
  answer; settle.
Qed.

Lemma searchDocuments_converts this query pageSize pageToken E t :
  converts_failures this (OpSearch query pageSize pageToken) E t.
Proof.
  unfold converts_failures, issued_by, perform, searchDocuments. run.
  answer; settle.
Qed.

Lemma verifyConnection_converts this E t :
  converts_failures this OpVerify E t.
Proof.
  unfold converts_failures, issued_by, perform, verifyConnection, failure_result. run.
  answer; [| settle].
  tidy. eexists. split; [reflexivity |].
  intros pre rq post err Hl Hr. rewrite skipn_issued in Hl.
  positions Hl. cbn [app] in Hr. rewrite app_nil_r, Hcall in Hr.
  injection Hr as <-. split; [reflexivity |].
  unfold error_info, code_or_unknown, Js.or. reflexivity.
Qed.

Lemma createDocument_converts this title content E t :
  converts_failures this (OpCreate title content) E t.
Proof.
  unfold converts_failures, issued_by, perform, createDocument. run.
  answer; [settle |].
  destruct (Js.truthy content && Js.truthy (file_id d)).
  - unfold nonempty, convertContentToRequests.
    cbn [length Z.of_nat Z.ltb Z.compare Pos.of_succ_nat]. tidy.
    answer; [settle |]. tidy. answer; settle.
  - tidy. answer; settle.
Qed.

Lemma updateDocument_converts this documentId content replaceAll E t :
  converts_failures this (OpUpdate documentId content replaceAll) E t.
Proof.
  unfold converts_failures, issued_by, perform, updateDocument. run.
  unfold nonempty, convertContentToRequests.
  cbn [length Z.of_nat Z.ltb Z.compare Pos.of_succ_nat].
  destruct (Js.param replaceAll false).
  - answer; [settle |].
    destruct (body_content d) as [blocks |].
    + destruct (1 <? Z.of_nat (length blocks)).
      * unfold clear_request.
        destruct (nth_error blocks (length blocks - 1)) as [lastBlock |].
        -- run. tidy. answer; [settle |]. tidy. answer; [settle |].
           tidy. answer; settle.
        -- run. settle.
      * tidy. answer; [settle |]. tidy. answer; settle.
    + tidy. answer; [settle |]. tidy. answer; settle.
  - tidy. answer; [settle |]. tidy. answer; settle.
Qed.

Lemma perform_converts this op E t : converts_failures this op E t.
Proof.
  destruct op.
  - apply createDocument_converts.
  - apply getDocument_converts.
  - apply updateDocument_converts.
  - apply listDocuments_converts.
  - apply deleteDocument_converts.
  - apply exportDocument_converts.
  - apply shareDocument_converts.
  - apply searchDocuments_converts.
  - apply verifyConnection_converts.
Qed.

(** What the constructor throws is one of its three configuration
    errors. *)
Lemma constructor_throws (options : Options) (E : Env) (t : Trace) (e : JsError) :
  outcome (constructor options) E t = inl e ->
  message e = project_required
  \/ message e = credentials_required
  \/ message e = key_file_not_found (resolved_path options E).
Proof.
  unfold outcome. pose proof (constructor_run options E t) as H. cbv zeta in H.
  destruct (resolved_oauth options E) as [[cid secret] token]. rewrite H.
  repeat match goal with
  | |- context [if ?c then _ else _] => destruct c
  end; cbn [fst]; intros Hthrown;
    try discriminate Hthrown; injection Hthrown as <-; cbn [message new_Error]; auto.
Qed.

(** C5, as stated, fails for [verifyConnection]: the rejection of its
    call is caught, but the result is neither [{ error: message }] nor
    [{ success: false, error: message }]. *)
Lemma verifyConnection_shape_counterexample :
  let r := outcome (verifyConnection Scenario.api_key_client) Scenario5.down start in
  r = inr Scenario5.not_connected
  /\ (forall msg, r <> inr (ErrorResult msg))
  /\ (forall msg, r <> inr (FailureResult msg)).
Proof.
  cbv zeta. repeat split; intros msg H; vm_compute in H; discriminate H.
Qed.

(** C5, amended: none of the nine operations throws; the rejection of a
    remote call ends the operation and is returned as
    [{ error: message }], as [{ success: false, error: message }] for
    [deleteDocument] and [shareDocument], and as
    [{ connected: false, projectId, timestamp, error }] for
    [verifyConnection]; the constructor throws configuration errors only. *)
Theorem operations_catch_failures (this : GoogleDocsClient) (op : Operation)
    (E : Env) (t : Trace) :
  (exists r,
      outcome (perform this op) E t = inr r
      /\ forall pre rq post e,
           issued_by (perform this op) E t = (pre ++ rq :: post)%list ->
           remote E (issued t ++ pre) rq = inl e ->
           post = []
           /\ r = failure_result this E op e
           /\ (op <> OpVerify ->
               r = ErrorResult (message e) \/ r = FailureResult (message e))
           /\ (op = OpVerify ->
               r = NotConnected (this_projectId this) (now E) (error_info e)))
  /\ (forall options e,
        outcome (constructor options) E t = inl e ->
        message e = project_required
        \/ message e = credentials_required
        \/ message e = key_file_not_found (resolved_path options E)).
Proof.
  split; [| intros options e; apply constructor_throws].
  destruct (perform_converts this op E t) as (r & Hr & Hconv).
  exists r. split; [exact Hr |].
  intros pre rq post e Hl Hrej.
  destruct (Hconv pre rq post e Hl Hrej) as [-> ->].
  repeat split.
  - intros Hop. destruct op; cbn [failure_result]; auto. congruence.
  - intros ->. reflexivity.
Qed.

(* ------------------------------------------------------------------ *)
(** ** The connection check *)

Lemma verifyConnection_resolved this E t data :
  remote E (issued t) verify_request = inr data ->
  verifyConnection this E t =
    (inr (Connected (this_projectId this) (now E)
            (mkDetails (getAuthType this) "v1" (count_files data))),
     mkTrace (issued t ++ [verify_request]) (console t)).
Proof.
  intros H. unfold verifyConnection, verify_request in *. run. now rewrite H.
Qed.

Lemma verifyConnection_rejected this E t e :
  remote E (issued t) verify_request = inl e ->
  verifyConnection this E t =
    (inr (NotConnected (this_projectId this) (now E) (error_info e)),
     mkTrace (issued t ++ [verify_request])
       (console t ++ [LogError "Error verifying Google Docs API connection:" e])).
Proof.
  intros H. unfold verifyConnection, verify_request in *. run. now rewrite H.
Qed.

Lemma count_files_length (data : FileList) :
  count_files data =
    match files data with
    | Some l => Z.of_nat (length l)
    | None => 0
    end.
Proof.
  unfold count_files, Js.or_num. destruct (files data) as [l |]; cbn [option_map].
  - destruct (Z.eqb_spec (Z.of_nat (length l)) 0) as [-> | _]; reflexivity.
  - reflexivity.
Qed.

(** C2, as stated, fails for an error without [details]: the tool result
    of [google_docs_verify_connection] carries the stack text of the
    error as [error.details]. *)
Lemma verifyConnection_stack_counterexample :
  stack Scenario.hang_up
    = Some "Error: socket hang up at main (file:///app/dist/index.js:1:1)"
  /\ remote Scenario5.down [] verify_request = inl Scenario.hang_up
  /\ outcome (callTool Scenario.api_key_client
                (mkCall "google_docs_verify_connection" None))
       Scenario5.down start
     = inr (mkToolResult
              (Stringified
                 (NotConnected "my-project" "2025-04-15T07:30:00.000Z"
                    (mkErrorInfo "socket hang up" (CodeStr "ECONNRESET")
                       (stack Scenario.hang_up))))
              None).
Proof. repeat split. Qed.

(** The failure result of the connection check, at the client and
    through the dispatcher: the members of [error] are the message of
    the caught error, its code or ['UNKNOWN_ERROR'], and its details when
    it has any, its stack text otherwise. *)
Theorem verifyConnection_failure_descriptor (this : GoogleDocsClient)
    (args : option ToolArgs) (E : Env) (t : Trace) (e : JsError) :
  remote E (issued t) verify_request = inl e ->
  let info :=
    mkErrorInfo (message e)
      (match code e with
       | Some c => if truthy_code (code e) then c else CodeStr "UNKNOWN_ERROR"
       | None => CodeStr "UNKNOWN_ERROR"
       end)
      (if Js.truthy (details e) then details e else stack e) in
  outcome (verifyConnection this) E t
    = inr (NotConnected (this_projectId this) (now E) info)
  /\ outcome (callTool this (mkCall "google_docs_verify_connection" args)) E t
     = inr (mkToolResult
              (Stringified (NotConnected (this_projectId this) (now E) info))
              None)
  /\ (Js.truthy (details e) = true -> info_details info = details e)
  /\ (Js.truthy (details e) = false -> info_details info = stack e).
Proof.
  intros Hrej info. repeat split.
  - unfold outcome. now rewrite (verifyConnection_rejected this E t Hrej).
  - unfold outcome, callTool. cbn [tool_name arguments String.eqb Ascii.eqb Bool.eqb].
    run. now rewrite (verifyConnection_rejected this E t Hrej).
  - intros H. unfold info. cbn [info_details]. now rewrite H.
  - intros H. unfold info. cbn [info_details]. now rewrite H.
Qed.

(** C6: for a client the constructor built, when the list call of
    [verifyConnection] resolves the result is
    [{ connected: true, projectId, timestamp, details }] with
    [apiVersion] ['v1'], [documentCount] the number of files in the answer
    (0 or 1 when the service honours the page size of 1) and [authType]
    the name of the credential branch the constructor took; the list call
    is the only request. *)
Theorem verifyConnection_connected (options : Options) (E : Env) (t0 t : Trace)
    (this : GoogleDocsClient) (data : FileList) :
  outcome (constructor options) E t0 = inr this ->
  remote E (issued t) (FilesList 1 None list_query "files(id, name)") = inr data ->
  let count :=
    match files data with
    | Some l => Z.of_nat (length l)
    | None => 0
    end in
  let branch :=
    if Js.truthy (resolved_key options E) then "API Key"
    else if Js.truthy (resolved_path options E) then "Service Account"
    else "OAuth2" in
  outcome (verifyConnection this) E t
    = inr (Connected (resolved_project options E) (now E)
             (mkDetails branch "v1" count))
  /\ issued_by (verifyConnection this) E t
     = [FilesList 1 None list_query "files(id, name)"]
  /\ (forall l, files data = Some l -> (length l <= 1)%nat -> count = 0 \/ count = 1).
Proof.
  intros Hbuilt Hlist count branch. fold verify_request in Hlist.
  assert (Hthis : this_projectId this = resolved_project options E
                  /\ getAuthType this = branch).
  { unfold outcome in Hbuilt. pose proof (constructor_run options E t0) as H.
    cbv zeta in H. destruct (resolved_oauth options E) as [[cid secret] token].
    rewrite H in Hbuilt. unfold branch.
    repeat match type of Hbuilt with
    | context [if ?c then _ else _] => destruct c
    end; cbn [fst] in Hbuilt; try discriminate Hbuilt;
      injection Hbuilt as <-; split; reflexivity. }
  destruct Hthis as [Hproject Hauth].
  rewrite <- Hproject, <- Hauth. unfold count. rewrite <- count_files_length.
  repeat split.
  - unfold outcome. now rewrite (verifyConnection_resolved this E t Hlist).
  - unfold issued_by, trace_after.
    rewrite (verifyConnection_resolved this E t Hlist). cbn [snd issued].
    now rewrite skipn_issued.
  - intros l Hl Hle. rewrite count_files_length, Hl.
    destruct l as [| x [| y l]]; cbn [length] in *; [left | right | lia]; reflexivity.
Qed.

(* ------------------------------------------------------------------ *)
(** ** The connectivity check *)

Lemma or_absorb (a b : option string) : Js.or (Js.or a b) b = Js.or a b.
Proof. unfold Js.or. destruct (Js.truthy a) eqn:Ha; [now rewrite Ha | now destruct (Js.truthy b)]. Qed.

Lemma truthy_or_default (a : option string) :
  Js.truthy_string (Js.or_default a EmptyString) = Js.truthy a.
Proof. destruct a as [[| c s] |]; reflexivity. Qed.

Lemma resolved_cli (values : CliValues) (E : Env) :
  let o := cli_options values E in
  Js.truthy_string (resolved_project o E) = Js.truthy (projectId o)
  /\ resolved_key o E = apiKey o
  /\ resolved_path o E = serviceAccountPath o
  /\ resolved_oauth o E = (oauthClientId o, oauthClientSecret o, oauthRefreshToken o).
Proof.
  cbv zeta. unfold resolved_project, resolved_key, resolved_path, resolved_oauth, cli_options.
  cbn [projectId apiKey serviceAccountPath oauthClientId oauthClientSecret
         oauthRefreshToken].
  rewrite truthy_or_default, !or_absorb. repeat split.
Qed.

(** The outcome of the constructor does not depend on the trace, and it
    only prints. *)
Lemma constructor_shape (options : Options) (E : Env) :
  exists r lines, forall t,
    constructor options E t = (r, mkTrace (issued t) (console t ++ lines)).
Proof.
  pose proof (constructor_run options E) as H. cbv zeta in H.
  destruct (resolved_oauth options E) as [[cid secret] token].
  repeat match type of H with
  | context [if ?c then _ else _] => destruct c
  end;
  first
    [ eexists; exists []; intros [i c]; rewrite H; cbn [issued console];
      now rewrite app_nil_r
    | eexists; eexists; intros t; rewrite H; reflexivity ].
Qed.

(** A client is built only from credentials that pass the checks [main]
    makes itself. *)
Lemma constructor_cli_checks (values : CliValues) (E : Env) (t : Trace)
    (this : GoogleDocsClient) :
  let o := cli_options values E in
  outcome (constructor o) E t = inr this ->
  Js.truthy (projectId o) = true
  /\ negb (Js.truthy (serviceAccountPath o)) && negb (Js.truthy (apiKey o))
     && negb (Js.truthy (oauthClientId o) && Js.truthy (oauthClientSecret o)
              && Js.truthy (oauthRefreshToken o)) = false.
Proof.
  cbv zeta. unfold outcome.
  pose proof (constructor_run (cli_options values E) E t) as H. cbv zeta in H.
  destruct (resolved_cli values E) as (Hp & Hk & Hs & Ho). rewrite Ho in H.
  rewrite H, Hp, Hk, Hs.
  destruct (Js.truthy (projectId (cli_options values E))),
    (Js.truthy (apiKey (cli_options values E))),
    (Js.truthy (serviceAccountPath (cli_options values E))),
    (Js.truthy (oauthClientId (cli_options values E))),
    (Js.truthy (oauthClientSecret (cli_options values E))),
    (Js.truthy (oauthRefreshToken (cli_options values E)));
    cbn [negb andb fst]; intros Hb;
    first [ split; reflexivity | discriminate Hb ].
Qed.

Lemma when_log {B : Type} (c : bool) (line : string) (k : unit -> M B) E t :
  bind (when c (console_log line)) k E t =
    k tt E (mkTrace (issued t) (console t ++ if c then [Log line] else [])).
Proof.
  destruct c; unfold bind, when, console_log, ret; cbn [issued console].
  - reflexivity.
  - rewrite app_nil_r. now destruct t.
Qed.

Lemma log_then {B : Type} (line : string) (k : unit -> M B) E t :
  bind (console_log line) k E t =
    k tt E (mkTrace (issued t) (console t ++ [Log line])).
Proof. reflexivity. Qed.

Lemma console_lines_run (ls : list string) E t :
  console_lines ls E t = (inr tt, mkTrace (issued t) (console t ++ map Log ls)).
Proof.
  revert t. induction ls as [| l ls IH]; intros t.
  - cbn [console_lines map]. unfold ret. rewrite app_nil_r. now destruct t.
  - cbn [console_lines map]. rewrite log_then, IH. cbn [issued console].
    now rewrite <- app_assoc.
Qed.

Lemma bind_assoc {A B C : Type} (m : M A) (k1 : A -> M B) (k2 : B -> M C) E t :
  bind (bind m k1) k2 E t = bind m (fun x => bind (k1 x) k2) E t.
Proof. unfold bind. now destruct (m E t) as [[e | a] t']. Qed.

Lemma ask_then {B : Type} (k : Env -> M B) E t : bind ask k E t = k E E t.
Proof. reflexivity. Qed.

Lemma json_then {B : Type} (r : OpResult) (k : unit -> M B) E t :
  bind (console_json r) k E t =
    k tt E (mkTrace (issued t) (console t ++ [LogJson r])).
Proof. reflexivity. Qed.

Lemma when_throw {B : Type} (c : bool) (msg : string) (k : unit -> M B) E t :
  bind (when c (throw_Error msg)) k E t =
    if c then (inl (new_Error E msg), t) else k tt E t.
Proof. now destruct c. Qed.

(** Finds a line at the end of a list of printed lines. *)
Ltac printed :=
  repeat first
    [ left; reflexivity
    | apply in_or_app; right
    | right ].

(** Ends a path of [main] that leaves through the [catch] block. *)
Ltac caught :=
  unfold bind, console_error_message, ret; cbn [issued console];
  rewrite <- !app_assoc; eexists; eexists; split; [reflexivity | printed].

(** [main] up to the construction of the client: a failure there ends
    the process with 1 after a line on the error stream. *)
Lemma main_not_configured (E : Env) (t : Trace) :
  (forall values this,
      parseArgs E = inr values ->
      outcome (constructor (cli_options values E)) E t <> inr this) ->
  exists lines msg,
    main E t = (inr 1, mkTrace (issued t) (console t ++ lines))
    /\ In (LogErrorMessage "Error:" msg) lines.
Proof.
  intros Hfail. unfold main. rewrite !log_then. unfold try_catch.
  rewrite ask_then. destruct (parseArgs E) as [e | values] eqn:Hparse.
  - rewrite bind_throw. caught.
  - specialize (Hfail values). rewrite bind_ret.
    rewrite !when_throw.
    match goal with |- context [if ?c then _ else _] => destruct c end;
      [caught |].
    match goal with |- context [if ?c then _ else _] => destruct c end;
      [caught |].
    rewrite !when_log, !log_then. cbn [issued console].
    change (mkOptions _ _ _ _ _ _) with (cli_options values E).
    destruct (constructor_shape (cli_options values E) E) as (r & lines & Hshape).
    destruct r as [e | this].
    + rewrite (bind_inl _ _ _ _ (Hshape _)). caught.
    + exfalso. apply (Hfail this); [reflexivity |]. unfold outcome. now rewrite Hshape.
Qed.

Lemma tail_here {A : Type} (tail : list A) :
  exists before, tail = (before ++ tail)%list.
Proof. now exists []. Qed.

Lemma tail_after_cons {A : Type} (x : A) (l tail : list A) :
  (exists before, l = (before ++ tail)%list) ->
  exists before, x :: l = (before ++ tail)%list.
Proof. intros [b ->]. now exists (x :: b). Qed.

Lemma tail_after_app {A : Type} (l1 l2 tail : list A) :
  (exists before, l2 = (before ++ tail)%list) ->
  exists before, (l1 ++ l2)%list = (before ++ tail)%list.
Proof. intros [b ->]. exists (l1 ++ b)%list. now rewrite app_assoc. Qed.

(** Finds the end of a list of printed lines. *)
Ltac tail :=
  repeat first
    [ apply tail_here
    | apply tail_after_cons
    | apply tail_after_app ].

(** [main] with a client built: the check runs, its result is printed,
    then the verdict, and the exit code follows the result. *)
Lemma main_configured (E : Env) (t : Trace) (values : CliValues)
    (this : GoogleDocsClient) :
  parseArgs E = inr values ->
  outcome (constructor (cli_options values E)) E t = inr this ->
  exists r lines,
    outcome (verifyConnection this) E t = inr r
    /\ main E t =
         (inr (if result_connected r then 0 else 1),
          mkTrace (issued t ++ [verify_request]) (console t ++ lines))
    /\ exists before, lines = (before ++ LogJson r :: verdict r)%list.
Proof.
  intros Hparse Hbuilt.
  destruct (constructor_cli_checks values E t Hbuilt) as [Hproject Hcreds].
  unfold cli_options in Hproject, Hcreds.
  cbn [projectId apiKey serviceAccountPath oauthClientId oauthClientSecret
         oauthRefreshToken] in Hproject, Hcreds.
  destruct (constructor_shape (cli_options values E) E) as (b & built & Hshape).
  unfold outcome in Hbuilt. rewrite Hshape in Hbuilt. cbn [fst] in Hbuilt. subst b.
  unfold main. rewrite !log_then. unfold try_catch.
  rewrite ask_then, Hparse, bind_ret. cbv zeta beta.
  rewrite !when_throw, Hcreds, Hproject. cbn [negb].
  rewrite !when_log, !log_then. cbn [issued console].
  change (mkOptions _ _ _ _ _ _) with (cli_options values E).
  rewrite (bind_inr _ _ _ _ (Hshape _)). rewrite log_then. cbn [issued console].
  destruct (remote E (issued t) verify_request) as [e | data] eqn:Hcall.
  - erewrite bind_inr by (apply verifyConnection_rejected; exact Hcall).
    rewrite !log_then, json_then. cbn [issued console result_connected].
    rewrite log_then. cbn [issued console].
    unfold verdict.
    destruct (code_is_403 (result_error_code
                (NotConnected (this_projectId this) (now E) (error_info e))))
      eqn:Hcode.
    + rewrite bind_assoc, log_then. erewrite bind_inr by apply console_lines_run.
      unfold ret. cbn [issued console]. rewrite <- !app_assoc. cbn [app].
      exists (NotConnected (this_projectId this) (now E) (error_info e)).
      eexists. split; [| split; [reflexivity |]].
      * unfold outcome. now rewrite (verifyConnection_rejected this E t Hcall).
      * cbn [result_connected]. rewrite Hcode. tail.
    + rewrite log_then. unfold ret. cbn [issued console].
      rewrite <- !app_assoc. cbn [app].
      exists (NotConnected (this_projectId this) (now E) (error_info e)).
      eexists. split; [| split; [reflexivity |]].
      * unfold outcome. now rewrite (verifyConnection_rejected this E t Hcall).
      * cbn [result_connected]. rewrite Hcode. tail.
  - erewrite bind_inr by (apply verifyConnection_resolved; exact Hcall).
    rewrite !log_then, json_then. cbn [issued console result_connected].
    rewrite !log_then. unfold ret. cbn [issued console].
    rewrite <- !app_assoc. cbn [app].
    exists (Connected (this_projectId this) (now E)
              (mkDetails (getAuthType this) "v1" (count_files data))).
    eexists. split; [| split; [reflexivity |]].
    + unfold outcome. now rewrite (verifyConnection_resolved this E t Hcall).
    + unfold verdict. cbn [result_connected]. tail.
Qed.

Lemma code_is_403_spec (c : ErrCode) :
  code_is_403 (Some c) = true <-> c = CodeNum 403.
Proof.
  destruct c as [n | s]; cbn [code_is_403].
  - rewrite Z.eqb_eq. split; [now intros -> | now intros [= ->]].
  - split; discriminate.
Qed.

(** [main] never rejects, so [run_main] ends as [main] does. *)
Lemma run_main_main (E : Env) (t : Trace) (code : Z) (t' : Trace) :
  main E t = (inr code, t') -> run_main E t = (inr code, t').
Proof. intros H. unfold run_main. now apply try_catch_inr. Qed.

(** The exit code of the connectivity check: always 0 or 1, and 0
    exactly when the arguments parse, the client is built and
    [verifyConnection] answers [connected: true]; after the printed
    result of a failed check come an empty line and the verdict, chosen
    by the strict test [error.code === 403]. *)
Theorem main_exit_code (E : Env) (t : Trace) :
  exists exit_code,
    outcome run_main E t = inr exit_code
    /\ (exit_code = 0 \/ exit_code = 1)
    /\ (exit_code = 0 <->
        exists values this pid ts d,
          parseArgs E = inr values
          /\ outcome (constructor (cli_options values E)) E t = inr this
          /\ outcome (verifyConnection this) E t = inr (Connected pid ts d))
    /\ (forall values this pid ts info,
          parseArgs E = inr values ->
          outcome (constructor (cli_options values E)) E t = inr this ->
          outcome (verifyConnection this) E t = inr (NotConnected pid ts info) ->
          exit_code = 1
          /\ (info_code info = CodeNum 403 ->
              exists before,
                printed_by run_main E t =
                  (before ++ LogJson (NotConnected pid ts info) :: Log EmptyString
                     :: Log permission_failed :: map Log permission_hint)%list)
          /\ (info_code info <> CodeNum 403 ->
              exists before,
                printed_by run_main E t =
                  (before ++ [LogJson (NotConnected pid ts info); Log EmptyString;
                              Log connection_failed])%list))
    /\ ((forall values this,
            parseArgs E = inr values ->
            outcome (constructor (cli_options values E)) E t <> inr this) ->
        exit_code = 1
        /\ exists msg, In (LogErrorMessage "Error:" msg) (printed_by run_main E t)).
Proof.
  assert (Hcases :
    (exists values this,
        parseArgs E = inr values
        /\ outcome (constructor (cli_options values E)) E t = inr this)
    \/ (forall values this,
          parseArgs E = inr values ->
          outcome (constructor (cli_options values E)) E t <> inr this)).
  { destruct (parseArgs E) as [e | values].
    - right. discriminate.
    - destruct (outcome (constructor (cli_options values E)) E t) as [e | this] eqn:Hb.
      + right. intros v this [= <-]. rewrite Hb. discriminate.
      + left. now exists values, this. }
  destruct Hcases as [(values & this & Hparse & Hbuilt) | Hnone].
  - destruct (main_configured E t Hparse Hbuilt)
      as (r & lines & Hr & Hmain & before & Hlines).
    apply run_main_main in Hmain.
    exists (if result_connected r then 0 else 1).
    assert (Hprinted : printed_by run_main E t = lines).
    { unfold printed_by, trace_after. rewrite Hmain. cbn [snd console].
      apply skipn_issued. }
    split; [unfold outcome; now rewrite Hmain |].
    split; [destruct (result_connected r); auto |].
    split; [| split].
    + split.
      * intros Hzero. exists values, this.
        destruct r; cbn [result_connected] in Hzero; try discriminate Hzero.
        eauto 10.
      * intros (values' & this' & pid & ts & d & Hparse' & Hbuilt' & Hok).
        rewrite Hparse in Hparse'. injection Hparse' as <-.
        rewrite Hbuilt in Hbuilt'. injection Hbuilt' as <-.
        rewrite Hr in Hok. injection Hok as ->. reflexivity.
    + intros values' this' pid ts info Hparse' Hbuilt' Hnot.
      rewrite Hparse in Hparse'. injection Hparse' as <-.
      rewrite Hbuilt in Hbuilt'. injection Hbuilt' as <-.
      rewrite Hr in Hnot. injection Hnot as ->.
      rewrite Hprinted, Hlines. unfold verdict.
      cbn [result_connected result_error_code].
      split; [reflexivity | split].
      * intros H403. apply code_is_403_spec in H403. rewrite H403. now exists before.
      * intros Hother. destruct (code_is_403 (Some (info_code info))) eqn:Hc.
        -- apply code_is_403_spec in Hc. contradiction.
        -- now exists before.
    + intros Hnone. exfalso. exact (Hnone values this Hparse Hbuilt).
  - destruct (main_not_configured E t Hnone) as (lines & msg & Hmain & Hin).
    apply run_main_main in Hmain.
    exists 1. split; [unfold outcome; now rewrite Hmain |].
    split; [auto |]. split; [| split].
    + split; [discriminate |].
      intros (values & this & pid & ts & d & Hparse & Hbuilt & _).
      exfalso. exact (Hnone values this Hparse Hbuilt).
    + intros values this pid ts info Hparse Hbuilt _.
      exfalso. exact (Hnone values this Hparse Hbuilt).
    + intros _. split; [reflexivity |]. exists msg.
      unfold printed_by, trace_after. rewrite Hmain. cbn [snd console].
      now rewrite skipn_issued.
Qed.

(* ------------------------------------------------------------------ *)
(** ** The theorems at concrete inputs *)

Example run_main_reachable :
  outcome run_main Scenario9.reachable start = inr 0.
Proof. reflexivity. Qed.

Example run_main_refused :
  outcome run_main Scenario9.refused start = inr 1
  /\ In (Log permission_failed) (printed_by run_main Scenario9.refused start)
  /\ ~ In (Log connection_failed) (printed_by run_main Scenario9.refused start).
Proof.
  split; [reflexivity | split].
  - vm_compute. tauto.
  - vm_compute. intros H.
    repeat match goal with
    | H : _ \/ _ |- _ => destruct H as [H | H]
    | H : False |- _ => destruct H
    | H : _ = _ |- _ => discriminate H
    end.
Qed.

Example run_main_unconfigured :
  outcome run_main Scenario9.unconfigured start = inr 1
  /\ printed_by run_main Scenario9.unconfigured start =
       [Log "Google Docs API Connection Test";
        Log "===============================";
        LogErrorMessage "Error:" cli_credentials_required].
Proof. split; reflexivity. Qed.

Lemma updateDocument_replaceAll_witness :
  issued_by (updateDocument Scenario.api_key_client (Some "doc-1") (Some "new")
               (Some true))
    (Scenario3.env_of Scenario3.two_blocks) start
  = [DocumentsGet (Some "doc-1");
     DocumentsBatchUpdate (Some "doc-1") [DeleteContentRange 1 11];
     DocumentsBatchUpdate (Some "doc-1") [InsertText 1 (Some "new")];
     DocumentsGet (Some "doc-1")].
Proof.
  pose proof (@updateDocument_replaceAll Scenario.api_key_client (Some "doc-1")
                (Some "new") (Scenario3.env_of Scenario3.two_blocks) start
                Scenario3.two_blocks
                [mkElement None (Some 1); mkElement (Some 1) (Some 12)]
                eq_refl eq_refl) as [Hmany _].
  assert (Hfront : [mkElement None (Some 1)] <> []) by discriminate.
  destruct (Hmany [mkElement None (Some 1)] (mkElement (Some 1) (Some 12))
              eq_refl Hfront) as [Hissued _].
  - cbn. repeat split; eexists; reflexivity.
  - exact Hissued.
Defined.

Lemma constructor_first_match_witness :
  Js.truthy_string (resolved_project Scenario4.everything Scenario4.bare) = true
  /\ outcome (constructor Scenario4.everything) Scenario4.bare start
     = inr (mkClient "my-project" (Some (ApiKeyAuth "AIza-test"))).
Proof.
  split; [reflexivity |].
  exact (proj1 (proj1 (proj2 (@constructor_first_match Scenario4.everything
                                Scenario4.bare start)) eq_refl) eq_refl).
Defined.

Lemma operations_catch_failures_witness :
  outcome (deleteDocument Scenario.api_key_client (Some "doc-1")) Scenario5.down start
  = inr (FailureResult "socket hang up").
Proof.
  destruct (@operations_catch_failures Scenario.api_key_client
              (OpDelete (Some "doc-1")) Scenario5.down start)
    as [(r & Hr & Hconv) _].
  destruct (Hconv [] (FilesDelete (Some "doc-1")) [] Scenario.hang_up eq_refl eq_refl)
    as (_ & Hres & _).
  cbn [perform] in Hr. rewrite Hr, Hres. reflexivity.
Defined.

Lemma verifyConnection_connected_witness :
  outcome (verifyConnection Scenario.api_key_client) Scenario9.reachable start
  = inr (Connected "my-project" "2025-04-15T07:30:00.000Z"
           (mkDetails "API Key" "v1" 1)).
Proof.
  exact (proj1 (@verifyConnection_connected
                  (mkOptions None (Some "AIza-test") (Some "my-project")
                     None None None)
                  Scenario9.reachable start start Scenario.api_key_client
                  (mkFileList (Some [Scenario.one_file]) None) eq_refl eq_refl)).
Defined.

Lemma constructor_missing_key_file_witness :
  exists e,
    outcome (constructor Scenario4.path_only) Scenario4.bare start = inl e
    /\ message e = "Service account key file not found at: /keys/missing.json"
    /\ issued (trace_after (constructor Scenario4.path_only) Scenario4.bare start)
       = issued start.
Proof.
  assert (Hpath : "/keys/missing.json" <> EmptyString) by discriminate.
  exact (@constructor_missing_key_file Scenario4.path_only Scenario4.bare start
           "/keys/missing.json" eq_refl eq_refl eq_refl Hpath eq_refl).
Defined.

Lemma main_exit_code_witness :
  outcome run_main Scenario9.reachable start = inr 0.
Proof.
  destruct (main_exit_code Scenario9.reachable start)
    as (exit_code & Hout & _ & [_ Hzero] & _).
  rewrite Hout. f_equal. apply Hzero.
  exists Scenario9.key_values, Scenario.api_key_client.
  do 3 eexists. repeat split.
Defined.

Lemma createDocument_empty_content_witness :
  outcome (createDocument Scenario.api_key_client (Some "Notes") (Some EmptyString))
    Scenario9.reachable start
  = inr (Created (Some "doc-1") (Some "Notes")
           "https://docs.google.com/document/d/doc-1/edit" Scenario.empty_doc)
  /\ issued_by (createDocument Scenario.api_key_client (Some "Notes")
                  (Some EmptyString))
       Scenario9.reachable start
     = [FilesCreate (Some "Notes") document_mime; DocumentsGet (Some "doc-1")].
Proof.
  destruct (@createDocument_empty_content Scenario.api_key_client (Some "Notes")
              Scenario9.reachable start) as (_ & _ & _ & Hrun).
  exact (Hrun Scenario.one_file Scenario.empty_doc eq_refl eq_refl).
Defined.

(* ------------------------------------------------------------------ *)
(** ** More on replacing and creating *)

Lemma nth_error_last_split {A : Type} (l : list A) (x : A) :
  nth_error l (length l - 1) = Some x -> exists front, l = (front ++ [x])%list.
Proof.
  intros H. destruct l as [| a l]; [discriminate H |].
  exists (removelast (a :: l)).
  rewrite (app_removelast_last a) at 1 by discriminate.
  f_equal. f_equal.
  assert (Hn : nth_error (a :: l) (length (a :: l) - 1)
               = Some (last (a :: l) a)).
  { rewrite (app_removelast_last a) at 1 2 by discriminate.
    apply last_of_blocks. }
  rewrite Hn in H. now injection H.
Qed.

(** Closes a goal about the members of an explicit list of requests. *)
Ltac members H :=
  repeat match type of H with
  | In _ (_ :: _) => destruct H as [H | H]; [subst |]
  | In _ [] => destruct H
  | _ \/ _ => destruct H as [H | H]
  | False => destruct H
  end.

(** X1: without [replaceAll] (absent or false) [updateDocument] does not
    look at the document first: its first request is the insert of the
    content at index 1, it never deletes, and when the insert and the
    fetch resolve it returns the fetched document. *)
Theorem updateDocument_without_replaceAll (this : GoogleDocsClient)
    (documentId content : option string) (replaceAll : option bool)
    (E : Env) (t : Trace) :
  Js.param replaceAll false = false ->
  let get := DocumentsGet documentId in
  let insert := DocumentsBatchUpdate documentId [InsertText 1 content] in
  let update := updateDocument this documentId content replaceAll in
  (exists rest, issued_by update E t = insert :: rest)
  /\ (forall rq, In rq (issued_by update E t) -> is_delete rq = false)
  /\ (resolves E (issued t) [insert; get] ->
      issued_by update E t = [insert; get]
      /\ exists final,
           remote E (issued t ++ [insert]) get = inr final
           /\ outcome update E t = inr (DocumentData final)).
Proof.
  intros Hmode get insert update.
  unfold update, issued_by, updateDocument. run. rewrite Hmode.
  unfold nonempty, convertContentToRequests.
  cbn [length Z.of_nat Z.ltb Z.compare Pos.of_succ_nat]. tidy.
  fold insert.
  destruct (remote E (issued t) insert) as [e | []] eqn:Hins; tidy.
  - rewrite skipn_issued. split; [| split].
    + now exists [].
    + intros rq Hin. members Hin. reflexivity.
    + intros Hres. cbn [resolves] in Hres. destruct Hres as [[d Hd] _].
      rewrite Hins in Hd. discriminate Hd.
  - fold get. destruct (remote E (issued t ++ [insert]) get) as [e | final] eqn:Hget;
      tidy; rewrite skipn_issued; (split; [| split]).
    + now exists [get].
    + intros rq Hin. members Hin; reflexivity.
    + intros Hres. cbn [resolves] in Hres. destruct Hres as (_ & [d Hd] & _).
      rewrite Hget in Hd. discriminate Hd.
    + now exists [get].
    + intros rq Hin. members Hin; reflexivity.
    + intros _. split; [reflexivity |]. exists final. now split.
Qed.

(** X2: [updateDocument] issues a delete only with [replaceAll = true],
    after a resolved fetch whose body holds more than one block; the
    delete is then the range from 1 to the end index of the last block
    (1 for a missing or zero one) minus 1.  A body that is absent, empty
    or of one block is never cleared. *)
Theorem updateDocument_delete_only_when (this : GoogleDocsClient)
    (documentId content : option string) (replaceAll : option bool)
    (E : Env) (t : Trace) (rq : Request) :
  In rq (issued_by (updateDocument this documentId content replaceAll) E t) ->
  is_delete rq = true ->
  replaceAll = Some true
  /\ exists doc front lastBlock,
       remote E (issued t) (DocumentsGet documentId) = inr doc
       /\ body_content doc = Some (front ++ [lastBlock])%list
       /\ front <> []
       /\ rq = DocumentsBatchUpdate documentId
                 [DeleteContentRange 1 (Js.or_num (endIndex lastBlock) 1 - 1)].
Proof.
  unfold issued_by, updateDocument. run.
  unfold nonempty, convertContentToRequests.
  cbn [length Z.of_nat Z.ltb Z.compare Pos.of_succ_nat].
  destruct replaceAll as [[|] |]; cbn [Js.param].
  2, 3: tidy; repeat (answer; tidy); rewrite skipn_issued;
        intros Hin Hdel; members Hin; discriminate Hdel.
  answer; tidy.
  { rewrite skipn_issued. intros Hin Hdel. members Hin. discriminate Hdel. }
  destruct (body_content d) as [blocks |] eqn:Hbody.
  2: { tidy; repeat (answer; tidy); rewrite skipn_issued;
       intros Hin Hdel; members Hin; discriminate Hdel. }
  destruct (1 <? Z.of_nat (length blocks)) eqn:Hlen.
  2: { tidy; repeat (answer; tidy); rewrite skipn_issued;
       intros Hin Hdel; members Hin; discriminate Hdel. }
  unfold clear_request.
  destruct (nth_error blocks (length blocks - 1)) as [lastBlock |] eqn:Hlast.
  2: { run. tidy. rewrite skipn_issued. intros Hin Hdel. members Hin.
       discriminate Hdel. }
  destruct (nth_error_last_split blocks Hlast) as [front ->].
  assert (Hfront : front <> []).
  { intros ->. cbn in Hlen. discriminate Hlen. }
  run. tidy.
  repeat (answer; tidy); rewrite skipn_issued; intros Hin Hdel; members Hin;
    try discriminate Hdel;
    (split; [reflexivity |]; exists d, front, lastBlock; auto).
Qed.

(** X3: a replace is not undone.  When the fetch and the delete resolve
    and the insert is rejected, [updateDocument] stops there: the delete
    stays issued, no further request follows, and the caller gets
    [{ error: message }] only. *)
Theorem updateDocument_insert_rejected (this : GoogleDocsClient)
    (documentId content : option string) (E : Env) (t : Trace)
    (doc : Document) (front : list StructuralElement)
    (lastBlock : StructuralElement) (e : JsError) :
  let get := DocumentsGet documentId in
  let delete :=
    DocumentsBatchUpdate documentId
      [DeleteContentRange 1 (Js.or_num (endIndex lastBlock) 1 - 1)] in
  let insert := DocumentsBatchUpdate documentId [InsertText 1 content] in
  let update := updateDocument this documentId content (Some true) in
  remote E (issued t) get = inr doc ->
  body_content doc = Some (front ++ [lastBlock])%list ->
  front <> [] ->
  remote E (issued t ++ [get]) delete = inr tt ->
  remote E (issued t ++ [get; delete]) insert = inl e ->
  outcome update E t = inr (ErrorResult (message e))
  /\ issued_by update E t = [get; delete; insert].
Proof.
  intros get delete insert update Hget Hbody Hfront Hdel Hins.
  assert (Hrun : update E t =
            (inr (ErrorResult (message e)),
             mkTrace (issued t ++ [get; delete; insert])
               (console t ++ [LogError "Error updating document:" e]))).
  { unfold update, updateDocument. run. cbn [Js.param].
    fold get. rewrite Hget. tidy.
    rewrite Hbody, several_blocks, clear_request_last by assumption.
    run. fold delete. rewrite Hdel.
    unfold nonempty, convertContentToRequests.
    cbn [length Z.of_nat Z.ltb Z.compare Pos.of_succ_nat]. tidy.
    fold insert. rewrite Hins. tidy. reflexivity. }
  split.
  - unfold outcome. now rewrite Hrun.
  - unfold issued_by, trace_after. rewrite Hrun. cbn [snd issued].
    apply skipn_issued.
Qed.

(** X4: with non-empty content and an id in the answer of the create
    call, [createDocument] issues the create, the insert of the content
    at index 1 into the new document and the fetch of it, and returns the
    id, the title, the edit link built from the id and the fetched
    document. *)
Theorem createDocument_with_content (this : GoogleDocsClient)
    (title : option string) (content id_ : string) (E : Env) (t : Trace)
    (file : DriveFile) (doc : Document) :
  let create := FilesCreate title document_mime in
  let insert := DocumentsBatchUpdate (Some id_) [InsertText 1 (Some content)] in
  let get := DocumentsGet (Some id_) in
  content <> EmptyString ->
  id_ <> EmptyString ->
  remote E (issued t) create = inr file ->
  file_id file = Some id_ ->
  remote E (issued t ++ [create]) insert = inr tt ->
  remote E (issued t ++ [create; insert]) get = inr doc ->
  outcome (createDocument this title (Some content)) E t
    = inr (Created (Some id_) title
             ("https://docs.google.com/document/d/" ++ id_ ++ "/edit") doc)
  /\ issued_by (createDocument this title (Some content)) E t
     = [create; insert; get].
Proof.
  intros create insert get Hcontent Hid Hcreate Hfile Hins Hget.
  assert (Hrun : createDocument this title (Some content) E t =
            (inr (Created (Some id_) title
                    ("https://docs.google.com/document/d/" ++ id_ ++ "/edit") doc),
             mkTrace (issued t ++ [create; insert; get]) (console t))).
  { unfold createDocument. run. fold create. rewrite Hcreate. tidy.
    rewrite Hfile.
    destruct content as [| c content]; [congruence |].
    destruct id_ as [| i id_]; [congruence |].
    cbn [Js.truthy Js.truthy_string andb Js.or_default Js.tpl].
    unfold nonempty, convertContentToRequests.
    cbn [length Z.of_nat Z.ltb Z.compare Pos.of_succ_nat]. tidy.
    fold insert. rewrite Hins. tidy. fold get. rewrite Hget. tidy. reflexivity. }
  split.
  - unfold outcome. now rewrite Hrun.
  - unfold issued_by, trace_after. rewrite Hrun. cbn [snd issued].
    apply skipn_issued.
Qed.

(** X5: when the create call resolves without an id, [createDocument]
    inserts nothing, whatever the content, and fetches the document with
    the empty string as id; the create and that fetch are all it issues. *)
Theorem createDocument_without_id (this : GoogleDocsClient)
    (title content : option string) (E : Env) (t : Trace) (file : DriveFile) :
  let create := FilesCreate title document_mime in
  remote E (issued t) create = inr file ->
  Js.truthy (file_id file) = false ->
  issued_by (createDocument this title content) E t
    = [create; DocumentsGet (Some EmptyString)]
  /\ (forall doc,
        remote E (issued t ++ [create]) (DocumentsGet (Some EmptyString)) = inr doc ->
        outcome (createDocument this title content) E t
          = inr (Created (file_id file) title
                   ("https://docs.google.com/document/d/" ++ Js.tpl (file_id file)
                      ++ "/edit") doc)).
Proof.
  intros create Hcreate Hid.
  assert (Hdefault : Js.or_default (file_id file) EmptyString = EmptyString).
  { destruct (file_id file) as [[| c s] |]; try reflexivity. discriminate Hid. }
  unfold issued_by, createDocument. run. fold create. rewrite Hcreate. tidy.
  rewrite Hid, andb_false_r, Hdefault. tidy.
  split.
  - answer; tidy; apply skipn_issued.
  - intros doc Hget. now rewrite Hget.
Qed.

(** X6: a rejected insert leaves the new document behind.  When the
    create call resolves with an id and the insert of the content is
    rejected, [createDocument] returns [{ error: message }], without the
    id, and issues nothing after the insert. *)
Theorem createDocument_insert_rejected (this : GoogleDocsClient)
    (title : option string) (content id_ : string) (E : Env) (t : Trace)
    (file : DriveFile) (e : JsError) :
  let create := FilesCreate title document_mime in
  let insert := DocumentsBatchUpdate (Some id_) [InsertText 1 (Some content)] in
  content <> EmptyString ->
  id_ <> EmptyString ->
  remote E (issued t) create = inr file ->
  file_id file = Some id_ ->
  remote E (issued t ++ [create]) insert = inl e ->
  outcome (createDocument this title (Some content)) E t
    = inr (ErrorResult (message e))
  /\ issued_by (createDocument this title (Some content)) E t = [create; insert].
Proof.
  intros create insert Hcontent Hid Hcreate Hfile Hins.
  assert (Hrun : createDocument this title (Some content) E t =
            (inr (ErrorResult (message e)),
             mkTrace (issued t ++ [create; insert])
               (console t ++ [LogError "Error creating document:" e]))).
  { unfold createDocument. run. fold create. rewrite Hcreate. tidy.
    rewrite Hfile.
    destruct content as [| c content]; [congruence |].
    destruct id_ as [| i id_]; [congruence |].
    cbn [Js.truthy Js.truthy_string andb].
    unfold nonempty, convertContentToRequests.
    cbn [length Z.of_nat Z.ltb Z.compare Pos.of_succ_nat]. tidy.
    fold insert. rewrite Hins. tidy. reflexivity. }
  split.
  - unfold outcome. now rewrite Hrun.
  - unfold issued_by, trace_after. rewrite Hrun. cbn [snd issued].
    apply skipn_issued.
Qed.

(* ------------------------------------------------------------------ *)
(** ** The operations of one call *)

(** X7: six operations make exactly one remote call, resolved or
    rejected, with nothing before and nothing after it: the fetch, the
    list with page size 10 by default, the delete, the export as an array
    buffer with ['application/pdf'] by default, the grant to a user with
    role ['reader'] by default, and the one-file list of the connection
    check. *)
Theorem single_call_operations (this : GoogleDocsClient)
    (documentId pageToken mimeType emailAddress role : option string)
    (pageSize : option Z) (E : Env) (t : Trace) :
  issued_by (getDocument this documentId) E t = [DocumentsGet documentId]
  /\ issued_by (listDocuments this pageSize pageToken) E t
     = [FilesList (match pageSize with Some n => n | None => 10 end) pageToken
          "mimeType='application/vnd.google-apps.document'" list_fields]
  /\ issued_by (deleteDocument this documentId) E t = [FilesDelete documentId]
  /\ issued_by (exportDocument this documentId mimeType) E t
     = [FilesExport documentId
          (match mimeType with Some m => m | None => "application/pdf" end)
          "arraybuffer"]
  /\ issued_by (shareDocument this documentId emailAddress role) E t
     = [PermissionsCreate documentId "user"
          (match role with Some r => r | None => "reader" end) emailAddress]
  /\ issued_by (verifyConnection this) E t
     = [FilesList 1 None "mimeType='application/vnd.google-apps.document'"
          "files(id, name)"].
Proof.
  unfold issued_by, getDocument, listDocuments, deleteDocument, exportDocument,
    shareDocument, verifyConnection.
  run. repeat split; answer; tidy; apply skipn_issued.
Qed.

(** X8: fetching, listing, exporting, searching and checking the
    connection never send a request that changes what the service
    stores, whatever the service answers. *)
Theorem reading_operations_do_not_mutate (this : GoogleDocsClient)
    (op : Operation) (E : Env) (t : Trace) (rq : Request) :
  reads_only op = true ->
  In rq (issued_by (perform this op) E t) ->
  mutates rq = false.
Proof.
  intros Hreads Hin.
  destruct op; try discriminate Hreads; cbn [perform] in Hin;
    unfold issued_by, getDocument, listDocuments, exportDocument, searchDocuments,
      verifyConnection in Hin;
    revert Hin; run; answer; tidy; rewrite skipn_issued;
    intros Hin; members Hin; reflexivity.
Qed.

(** X9: listing and searching hand the page through: the page token
    given is the one sent, and the files and the next page token of the
    answer are returned as they came, absent members included. *)
Theorem listing_passes_pages_through (this : GoogleDocsClient)
    (query : option string) (pageSize : option Z) (pageToken : option string)
    (E : Env) (t : Trace) :
  let size := match pageSize with Some n => n | None => 10 end in
  (forall data,
      remote E (issued t) (FilesList size pageToken list_query list_fields)
        = inr data ->
      outcome (listDocuments this pageSize pageToken) E t
        = inr (Listing (files data) (nextPageToken data)))
  /\ (forall data,
        remote E (issued t)
          (FilesList size pageToken (search_query query) list_fields) = inr data ->
        outcome (searchDocuments this query pageSize pageToken) E t
          = inr (Listing (files data) (nextPageToken data))).
Proof.
  intros size. split; intros data Hdata.
  - unfold listDocuments. run.
    replace (Js.param pageSize 10) with size by now destruct pageSize.
    now rewrite Hdata.
  - unfold searchDocuments. run.
    replace (Js.param pageSize 10) with size by now destruct pageSize.
    now rewrite Hdata.
Qed.

(* ------------------------------------------------------------------ *)
(** ** More on the dispatcher *)

Lemma operation_of_registered (name : string) (args : ToolArgs) :
  In name tool_names <-> exists op, operation_of name args = Some op.
Proof.
  unfold operation_of, tool_names. split.
  - intros Hin. members Hin; cbn; eauto.
  - intros [op Hop].
    repeat match type of Hop with
    | context [String.eqb name ?s] =>
        destruct (String.eqb_spec name s) as [-> | _]; [cbn; tauto |]
    end.
    discriminate Hop.
Qed.

(** The handler runs the operation behind a registered name and wraps
    what it returns. *)
Lemma callTool_run (this : GoogleDocsClient) (name : string)
    (args : option ToolArgs) (op : Operation) (E : Env) (t : Trace) (r : OpResult)
    (t' : Trace) :
  operation_of name (Js.param args no_args) = Some op ->
  perform this op E t = (inr r, t') ->
  callTool this (mkCall name args) E t
    = (inr (mkToolResult (Stringified r) None), t').
Proof.
  intros Hop Hrun. unfold operation_of in Hop. unfold callTool.
  cbn [tool_name arguments].
  repeat match type of Hop with
  | context [String.eqb name ?s] =>
      destruct (String.eqb name s);
      [ injection Hop as <-; cbn [perform] in Hrun;
        unfold try_catch, bind, reply, ret; rewrite Hrun; reflexivity |]
  end.
  discriminate Hop.
Qed.

(** X10: for each of the nine names the handler calls the matching
    method with the arguments taken by name from the request, in the
    order of the method's parameters, and returns its result as the text
    of one content item without [isError]; it issues and prints what the
    method does and nothing else. *)
Theorem callTool_routes (this : GoogleDocsClient) (name : string)
    (args : option ToolArgs) (op : Operation) (E : Env) (t : Trace) :
  operation_of name (match args with Some a => a | None => no_args end) = Some op ->
  exists r,
    outcome (perform this op) E t = inr r
    /\ outcome (callTool this (mkCall name args)) E t
       = inr (mkToolResult (Stringified r) None)
    /\ trace_after (callTool this (mkCall name args)) E t
       = trace_after (perform this op) E t.
Proof.
  intros Hop.
  destruct (perform_converts this op E t) as (r & Hr & _).
  unfold outcome in Hr.
  destruct (perform this op E t) as [res t'] eqn:Hrun. cbn [fst] in Hr. subst res.
  exists r. unfold outcome, trace_after.
  rewrite (@callTool_run this name args op E t r t' Hop Hrun), Hrun. repeat split.
Qed.

(** X11: the handler never throws, and it sets [isError] exactly for the
    names outside the catalogue: the result of a registered tool carries
    no [isError], also when its remote call was rejected and the text
    holds an error object. *)
Theorem callTool_isError (this : GoogleDocsClient) (request : CallToolRequest)
    (E : Env) (t : Trace) :
  exists result,
    outcome (callTool this request) E t = inr result
    /\ (In (tool_name request) tool_names -> isError result = None)
    /\ (~ In (tool_name request) tool_names -> isError result = Some true).
Proof.
  destruct request as [name args].
  cbn [tool_name].
  destruct (operation_of name (Js.param args no_args)) as [op |] eqn:Hop.
  - assert (Hin : In name tool_names).
    { apply (operation_of_registered name (Js.param args no_args)). eauto. }
    destruct (perform_converts this op E t) as (r & Hr & _).
    unfold outcome in Hr.
    destruct (perform this op E t) as [res t'] eqn:Hrun. cbn [fst] in Hr. subst res.
    exists (mkToolResult (Stringified r) None). unfold outcome.
    rewrite (@callTool_run this name args op E t r t' Hop Hrun). repeat split.
    intros Hout. contradiction.
  - assert (Hout : ~ In name tool_names).
    { intros Hin. apply (operation_of_registered name (Js.param args no_args)) in Hin.
      destruct Hin as [op Hsome]. congruence. }
    eexists. unfold outcome. rewrite (callTool_default this args E t Hout).
    repeat split. intros Hin. contradiction.
Qed.

(** X12: the handler does not check the arguments against the schema.  A
    call of a registered tool without any argument, required ones
    included, still sends its first request to the service. *)
Theorem callTool_sends_without_arguments (this : GoogleDocsClient) (name : string)
    (E : Env) (t : Trace) :
  In name tool_names ->
  exists first rest,
    issued_by (callTool this (mkCall name None)) E t = first :: rest.
Proof.
  intros Hin.
  destruct (proj1 (operation_of_registered name no_args) Hin) as [op Hop].
  assert (Htrace : trace_after (callTool this (mkCall name None)) E t
                   = trace_after (perform this op) E t).
  { destruct (perform_converts this op E t) as (r & Hr & _).
    unfold outcome in Hr. unfold trace_after.
    destruct (perform this op E t) as [res t'] eqn:Hrun. cbn [fst] in Hr. subst res.
    now rewrite (@callTool_run this name None op E t r t' Hop Hrun). }
  unfold issued_by. rewrite Htrace.
  unfold operation_of in Hop. unfold tool_names in Hin.
  members Hin; cbn in Hop; injection Hop as <-; cbn [perform no_args arg_title
    arg_content arg_documentId arg_replaceAll arg_pageSize arg_pageToken
    arg_mimeType arg_emailAddress arg_role arg_query];
    unfold createDocument, getDocument, updateDocument, listDocuments,
      deleteDocument, exportDocument, shareDocument, searchDocuments,
      verifyConnection;
    run; cbn [Js.param];
    unfold nonempty, convertContentToRequests;
    cbn [length Z.of_nat Z.ltb Z.compare Pos.of_succ_nat andb Js.truthy];
    repeat (answer; tidy); rewrite skipn_issued; eauto.
Qed.

(** X13: the catalogue and the [switch] agree.  The nine descriptors
    have distinct names, each declares the parameters it requires, and a
    name is advertised exactly when a call of it is answered with the
    result of an operation. *)
Theorem catalogue_matches_dispatch (this : GoogleDocsClient) (name : string)
    (args : option ToolArgs) (E : Env) (t : Trace) :
  NoDup (map td_name tools)
  /\ (forall tool required_name required,
        In tool tools -> td_required tool = Some required ->
        In required_name required ->
        In required_name (map param_name (td_properties tool)))
  /\ (In name (map td_name tools) <->
      exists r,
        outcome (callTool this (mkCall name args)) E t
          = inr (mkToolResult (Stringified r) None)).
Proof.
  split; [| split].
  - cbn. repeat (constructor; [cbn; intuition discriminate |]). constructor.
  - intros tool required_name required Htool Hreq Hin.
    unfold tools in Htool. members Htool; cbn in Hreq;
      try discriminate Hreq; injection Hreq as <-; members Hin; cbn; tauto.
  - change (map td_name tools) with tool_names. split.
    + intros Hin.
      destruct (proj1 (operation_of_registered name (Js.param args no_args)) Hin)
        as [op Hop].
      destruct (perform_converts this op E t) as (r & Hr & _).
      unfold outcome in Hr.
      destruct (perform this op E t) as [res t'] eqn:Hrun. cbn [fst] in Hr. subst res.
      exists r. unfold outcome.
      now rewrite (@callTool_run this name args op E t r t' Hop Hrun).
    + intros [r Hr].
      destruct (in_dec string_dec name tool_names) as [Hin | Hout]; [exact Hin |].
      unfold outcome in Hr. rewrite (callTool_default this args E t Hout) in Hr.
      discriminate Hr.
Qed.

(* ------------------------------------------------------------------ *)
(** ** More on construction *)

(** X14: an argument of the constructor wins over the environment
    variable of the same credential, and an argument that is the empty
    string counts as absent: the project id and the API key of the built
    client are the argument when it is non-empty, the environment value
    otherwise. *)
Theorem constructor_argument_precedence (options : Options) (E : Env) (t : Trace)
    (this : GoogleDocsClient) :
  outcome (constructor options) E t = inr this ->
  (forall p, projectId options = Some p -> p <> EmptyString ->
      this_projectId this = p)
  /\ (Js.truthy (projectId options) = false ->
      GOOGLE_CLOUD_PROJECT_ID (env E) = Some (this_projectId this))
  /\ (forall k, apiKey options = Some k -> k <> EmptyString ->
      this_auth this = Some (ApiKeyAuth k))
  /\ (forall k, Js.truthy (apiKey options) = false ->
      GOOGLE_API_KEY (env E) = Some k -> k <> EmptyString ->
      this_auth this = Some (ApiKeyAuth k)).
Proof.
  intros Hbuilt. unfold outcome in Hbuilt.
  pose proof (constructor_run options E t) as H. cbv zeta in H.
  destruct (resolved_oauth options E) as [[cid secret] token].
  rewrite H in Hbuilt. clear H.
  unfold resolved_project, resolved_key, Js.or in Hbuilt.
  repeat split.
  - intros p Hp Hne. rewrite Hp in Hbuilt.
    destruct p as [| c p]; [congruence |]. cbn in Hbuilt.
    repeat match type of Hbuilt with
    | context [if ?c then _ else _] => destruct c
    end; cbn [fst] in Hbuilt; try discriminate Hbuilt;
      injection Hbuilt as <-; reflexivity.
  - intros Hp. rewrite Hp in Hbuilt.
    destruct (GOOGLE_CLOUD_PROJECT_ID (env E)) as [[| c p] |];
      cbn [Js.or_default Js.truthy_string negb] in Hbuilt;
      try discriminate Hbuilt.
    repeat match type of Hbuilt with
    | context [if ?c then _ else _] => destruct c
    end; cbn [fst] in Hbuilt; try discriminate Hbuilt;
      injection Hbuilt as <-; reflexivity.
  - intros k Hk Hne. rewrite Hk in Hbuilt.
    destruct k as [| c k]; [congruence |].
    cbn [Js.truthy Js.truthy_string Js.the] in Hbuilt.
    destruct (negb _) in Hbuilt; cbn [fst] in Hbuilt; [discriminate Hbuilt |].
    injection Hbuilt as <-. reflexivity.
  - intros k Hnone Hk Hne. rewrite Hnone, Hk in Hbuilt.
    destruct k as [| c k]; [congruence |].
    cbn [Js.truthy Js.truthy_string Js.the] in Hbuilt.
    destruct (negb _) in Hbuilt; cbn [fst] in Hbuilt; [discriminate Hbuilt |].
    injection Hbuilt as <-. reflexivity.
Qed.

(** X15: the constructor prints fixed texts only, never a credential:
    nothing when it throws, and the line of the chosen strategy followed
    by the line of completion when it builds a client, whose strategy is
    then never ['Unknown']. *)
Theorem constructor_prints (options : Options) (E : Env) (t : Trace) :
  (forall e,
      outcome (constructor options) E t = inl e ->
      printed_by (constructor options) E t = [])
  /\ (forall this,
        outcome (constructor options) E t = inr this ->
        getAuthType this <> "Unknown"
        /\ printed_by (constructor options) E t
           = [Log (if getAuthType this =? "API Key"
                   then "Using API key authentication"
                   else if getAuthType this =? "Service Account"
                   then "Using service account authentication"
                   else "Using OAuth2 authentication");
              Log "Google Docs client initialized"])%string.
Proof.
  unfold outcome, printed_by, trace_after.
  pose proof (constructor_run options E t) as H. cbv zeta in H.
  destruct (resolved_oauth options E) as [[cid secret] token].
  rewrite H. clear H.
  split.
  - intros e.
    repeat match goal with
    | |- context [if ?c then _ else _] => destruct c
    end; cbn [fst snd console]; intros Hthrown; try discriminate Hthrown;
      apply skipn_same.
  - repeat match goal with
    | |- context [if ?c then _ else _] => destruct c
    end; cbn [fst snd console]; intros this Hbuilt; try discriminate Hbuilt;
      injection Hbuilt as <-; (split; [discriminate |]);
      rewrite skipn_issued; reflexivity.
Qed.

(* ------------------------------------------------------------------ *)
(** ** More on the connectivity check *)

(** X16: the connectivity check reads and never writes: all it sends is
    the one-file list of [verifyConnection], and it sends it exactly when
    the arguments parse and the client is built. *)
Theorem main_sends_one_list (E : Env) (t : Trace) :
  ((exists values this,
       parseArgs E = inr values
       /\ outcome (constructor (cli_options values E)) E t = inr this)
   -> issued_by run_main E t
      = [FilesList 1 None "mimeType='application/vnd.google-apps.document'"
           "files(id, name)"])
  /\ ((forall values this,
          parseArgs E = inr values ->
          outcome (constructor (cli_options values E)) E t <> inr this)
      -> issued_by run_main E t = [])
  /\ (forall rq, In rq (issued_by run_main E t) -> mutates rq = false).
Proof.
  assert (Hyes : (exists values this,
       parseArgs E = inr values
       /\ outcome (constructor (cli_options values E)) E t = inr this)
     -> issued_by run_main E t = [verify_request]).
  { intros (values & this & Hparse & Hbuilt).
    destruct (main_configured E t Hparse Hbuilt) as (r & lines & _ & Hmain & _).
    apply run_main_main in Hmain.
    unfold issued_by, trace_after. rewrite Hmain. cbn [snd issued].
    apply skipn_issued. }
  assert (Hno : (forall values this,
          parseArgs E = inr values ->
          outcome (constructor (cli_options values E)) E t <> inr this)
      -> issued_by run_main E t = []).
  { intros Hnone.
    destruct (main_not_configured E t Hnone) as (lines & msg & Hmain & _).
    apply run_main_main in Hmain.
    unfold issued_by, trace_after. rewrite Hmain. cbn [snd issued].
    apply skipn_same. }
  split; [exact Hyes | split; [exact Hno |]].
  intros rq Hin.
  assert (Hcases :
    (exists values this,
        parseArgs E = inr values
        /\ outcome (constructor (cli_options values E)) E t = inr this)
    \/ (forall values this,
          parseArgs E = inr values ->
          outcome (constructor (cli_options values E)) E t <> inr this)).
  { destruct (parseArgs E) as [e | values].
    - right. discriminate.
    - destruct (outcome (constructor (cli_options values E)) E t) as [e | this] eqn:Hb.
      + right. intros v this [= <-]. rewrite Hb. discriminate.
      + left. now exists values, this. }
  destruct Hcases as [Hc | Hc].
  - rewrite (Hyes Hc) in Hin. members Hin. reflexivity.
  - rewrite (Hno Hc) in Hin. destruct Hin.
Qed.

(** X17: the connectivity check reports what is missing in a fixed
    order, before it builds anything: a command line that does not parse
    gives the parser's message; otherwise missing credentials give the
    credentials message, also when the project id is missing too;
    otherwise a missing project id gives the project message.  Each time
    the banner and that one error line are all that is printed, and the
    exit code is 1. *)
Theorem main_reports_in_order (E : Env) (t : Trace) :
  let banner := [Log "Google Docs API Connection Test";
                 Log "==============================="] in
  let ends msg :=
    outcome run_main E t = inr 1
    /\ printed_by run_main E t = (banner ++ [LogErrorMessage "Error:" msg])%list in
  (forall e, parseArgs E = inl e -> ends (message e))
  /\ (forall values,
        parseArgs E = inr values ->
        let o := cli_options values E in
        (Js.truthy (serviceAccountPath o) = false ->
         Js.truthy (apiKey o) = false ->
         oauth_complete (oauthClientId o, oauthClientSecret o, oauthRefreshToken o)
           = false ->
         ends cli_credentials_required)
        /\ (negb (Js.truthy (serviceAccountPath o)) && negb (Js.truthy (apiKey o))
            && negb (oauth_complete
                       (oauthClientId o, oauthClientSecret o, oauthRefreshToken o))
            = false ->
            Js.truthy (projectId o) = false ->
            ends cli_project_required)).
Proof.
  intros banner ends.
  assert (Hends : forall msg,
    main E t = (inr 1, mkTrace (issued t)
                         (console t ++ banner ++ [LogErrorMessage "Error:" msg])) ->
    ends msg).
  { intros msg Hmain. apply run_main_main in Hmain. unfold ends. split.
    - unfold outcome. now rewrite Hmain.
    - unfold printed_by, trace_after. rewrite Hmain. cbn [snd console].
      apply skipn_issued. }
  split.
  - intros e Hparse. apply Hends.
    unfold main. rewrite !log_then. unfold try_catch.
    rewrite ask_then, Hparse, bind_throw.
    unfold bind, console_error_message, ret. cbn [issued console].
    rewrite <- !app_assoc. reflexivity.
  - intros values Hparse o. unfold o, cli_options, oauth_complete.
    cbn [projectId apiKey serviceAccountPath oauthClientId oauthClientSecret
           oauthRefreshToken].
    split.
    + intros Hpath Hkey Hoauth. apply Hends.
      unfold main. rewrite !log_then. unfold try_catch.
      rewrite ask_then, Hparse, bind_ret. cbv zeta beta.
      rewrite !when_throw, Hpath, Hkey, Hoauth. cbn [negb andb].
      unfold bind, console_error_message, ret. cbn [issued console].
      rewrite <- !app_assoc. reflexivity.
    + intros Hcreds Hproject. apply Hends.
      unfold main. rewrite !log_then. unfold try_catch.
      rewrite ask_then, Hparse, bind_ret. cbv zeta beta.
      rewrite !when_throw, Hcreds, Hproject. cbn [negb].
      unfold bind, console_error_message, ret. cbn [issued console].
      rewrite <- !app_assoc. reflexivity.
Qed.

(** After the two checks of [main] the constructor can fail in one way
    only. *)
Lemma constructor_cli_failure (values : CliValues) (E : Env) (t : Trace)
    (e : JsError) :
  let o := cli_options values E in
  Js.truthy (projectId o) = true ->
  negb (Js.truthy (serviceAccountPath o)) && negb (Js.truthy (apiKey o))
  && negb (Js.truthy (oauthClientId o) && Js.truthy (oauthClientSecret o)
           && Js.truthy (oauthRefreshToken o)) = false ->
  outcome (constructor o) E t = inl e ->
  e = new_Error E (key_file_not_found (serviceAccountPath o))
  /\ Js.truthy (apiKey o) = false
  /\ Js.truthy (serviceAccountPath o) = true
  /\ existsSync E (Js.the (serviceAccountPath o)) = false.
Proof.
  cbv zeta. unfold outcome.
  pose proof (constructor_run (cli_options values E) E t) as H. cbv zeta in H.
  destruct (resolved_cli values E) as (Hp & Hk & Hs & Ho). rewrite Ho in H.
  rewrite H, Hp, Hk, Hs. clear H.
  intros -> Hcreds. cbn [negb].
  destruct (Js.truthy (apiKey (cli_options values E)));
    [cbn [fst]; discriminate |].
  destruct (Js.truthy (serviceAccountPath (cli_options values E))).
  - destruct (existsSync E (Js.the (serviceAccountPath (cli_options values E))));
      cbn [fst]; [discriminate |].
    intros [= <-]. repeat split.
  - cbn [negb andb] in Hcreds. apply negb_false_iff in Hcreds. rewrite Hcreds.
    cbn [fst]. discriminate.
Qed.

(** X18: past its own two checks, the only configuration error the
    connectivity check can still meet is the missing key file: when the
    constructor throws there, no API key is present, the key-file path is
    and names no file, and the check prints the constructor's message
    with that path and ends with 1. *)
Theorem main_key_file_error (E : Env) (t : Trace) (values : CliValues)
    (e : JsError) :
  let o := cli_options values E in
  parseArgs E = inr values ->
  Js.truthy (projectId o) = true ->
  negb (Js.truthy (serviceAccountPath o)) && negb (Js.truthy (apiKey o))
  && negb (Js.truthy (oauthClientId o) && Js.truthy (oauthClientSecret o)
           && Js.truthy (oauthRefreshToken o)) = false ->
  outcome (constructor o) E t = inl e ->
  Js.truthy (apiKey o) = false
  /\ existsSync E (Js.the (serviceAccountPath o)) = false
  /\ message e
     = "Service account key file not found at: " ++ Js.tpl (serviceAccountPath o)
  /\ outcome run_main E t = inr 1
  /\ In (LogErrorMessage "Error:" (message e)) (printed_by run_main E t).
Proof.
  intros o Hparse Hproject Hcreds Hthrown.
  destruct (constructor_cli_failure values E t Hproject Hcreds Hthrown)
    as (-> & Hkey & Hpath & Hmissing).
  fold o in Hkey, Hpath, Hmissing.
  split; [exact Hkey | split; [exact Hmissing | split; [reflexivity |]]].
  assert (Hmain : exists lines,
    main E t = (inr 1, mkTrace (issued t) (console t ++ lines))
    /\ In (LogErrorMessage "Error:"
             (message (new_Error E (key_file_not_found (serviceAccountPath o)))))
         lines).
  { destruct (constructor_shape o E) as (b & built & Hshape).
    unfold outcome in Hthrown. rewrite Hshape in Hthrown. cbn [fst] in Hthrown.
    subst b.
    unfold o, cli_options in Hproject, Hcreds.
    cbn [projectId apiKey serviceAccountPath oauthClientId oauthClientSecret
           oauthRefreshToken] in Hproject, Hcreds.
    unfold main. rewrite !log_then. unfold try_catch.
    rewrite ask_then, Hparse, bind_ret. cbv zeta beta.
    rewrite !when_throw, Hcreds, Hproject. cbn [negb].
    rewrite !when_log, !log_then. cbn [issued console].
    change (mkOptions _ _ _ _ _ _) with o.
    rewrite (bind_inl _ _ _ _ (Hshape _)).
    unfold bind, console_error_message, ret. cbn [issued console].
    rewrite <- !app_assoc. eexists. split; [reflexivity | printed]. }
  destruct Hmain as (lines & Hmain & Hin).
  apply run_main_main in Hmain. split.
  - unfold outcome. now rewrite Hmain.
  - unfold printed_by, trace_after. rewrite Hmain. cbn [snd console].
    now rewrite skipn_issued.
Qed.

(* ------------------------------------------------------------------ *)
(** ** The start-up of the server *)

(** The start-up once the command line is parsed. *)
Lemma index_startup_run (E : Env) (t : Trace) (values : CliValues) :
  parseArgs E = inr values ->
  let o := cli_options values E in
  let announced :=
    ((if Js.truthy (serviceAccountPath o)
      then [Log ("Using service account: " ++ Js.tpl (serviceAccountPath o))]
      else [])
     ++ (if Js.truthy (apiKey o)
         then [Log ("Using API key: " ++ substring 0 4 (Js.the (apiKey o)) ++ "...")]
         else [])
     ++ (if Js.truthy (oauthClientId o) && Js.truthy (oauthClientSecret o)
            && Js.truthy (oauthRefreshToken o)
         then [Log ("Using OAuth credentials with client ID: "
                      ++ substring 0 4 (Js.the (oauthClientId o)) ++ "...")]
         else [])
     ++ [Log ("Using project ID: " ++ Js.tpl (projectId o))])%list in
  index_startup E t =
    if negb (Js.truthy (serviceAccountPath o)) && negb (Js.truthy (apiKey o))
       && negb (Js.truthy (oauthClientId o) && Js.truthy (oauthClientSecret o)
                && Js.truthy (oauthRefreshToken o))
    then (inl (new_Error E cli_credentials_required), t)
    else if negb (Js.truthy (projectId o))
    then (inl (new_Error E cli_project_required), t)
    else constructor o E (mkTrace (issued t) (console t ++ announced)).
Proof.
  intros Hparse o announced. unfold index_startup.
  rewrite ask_then, Hparse, bind_ret. cbv zeta beta.
  rewrite !when_throw.
  unfold announced, o, cli_options.
  cbn [projectId apiKey serviceAccountPath oauthClientId oauthClientSecret
         oauthRefreshToken].
  match goal with |- context [if ?c then _ else _] => destruct c end;
    [reflexivity |].
  match goal with |- context [if ?c then _ else _] => destruct c end;
    [reflexivity |].
  unfold GoogleDocsServer.
  rewrite !when_log, !log_then. cbn [issued console].
  rewrite <- !app_assoc.
  unfold bind, ret.
  match goal with
  | |- (let (_, _) := ?c in _) = _ => destruct c as [[e | this] t']
  end; reflexivity.
Qed.

(** X19: the start-up of the server sends nothing to the service, and it
    yields a client exactly when the command line parses and the
    constructor succeeds on the resolved credentials, the same condition
    under which the connectivity check reaches the service; every other
    start ends in a thrown error, the parser's own or, with no
    credentials, the credentials error before anything is printed. *)
Theorem index_startup_outcome (E : Env) (t : Trace) :
  issued (trace_after index_startup E t) = issued t
  /\ (forall this,
        outcome index_startup E t = inr this <->
        exists values,
          parseArgs E = inr values
          /\ outcome (constructor (cli_options values E)) E t = inr this)
  /\ (forall e, parseArgs E = inl e -> index_startup E t = (inl e, t))
  /\ (forall values,
        parseArgs E = inr values ->
        let o := cli_options values E in
        Js.truthy (serviceAccountPath o) = false ->
        Js.truthy (apiKey o) = false ->
        oauth_complete (oauthClientId o, oauthClientSecret o, oauthRefreshToken o)
          = false ->
        index_startup E t = (inl (new_Error E cli_credentials_required), t)).
Proof.
  destruct (parseArgs E) as [e | values] eqn:Hparse.
  - assert (Hrun : index_startup E t = (inl e, t)).
    { unfold index_startup. now rewrite ask_then, Hparse, bind_throw. }
    unfold trace_after, outcome. rewrite Hrun. cbn [fst snd].
    repeat split; try discriminate.
    + intros (values & Hv & _). discriminate Hv.
    + intros e' [= <-]. reflexivity.
  - pose proof (index_startup_run E t Hparse) as Hrun. cbv zeta in Hrun.
    destruct (constructor_shape (cli_options values E) E) as (b & lines & Hshape).
    rewrite Hshape in Hrun. cbn [issued console] in Hrun.
    unfold trace_after, outcome.
    split; [| split; [| split]].
    + rewrite Hrun.
      repeat match goal with
      | |- context [if ?c then _ else _] => destruct c
      end; reflexivity.
    + intros this. split.
      * intros Hthis. exists values. split; [reflexivity |].
        rewrite Hshape. cbn [fst].
        rewrite Hrun in Hthis.
        repeat match type of Hthis with
        | context [if ?c then _ else _] => destruct c
        end; cbn [fst] in Hthis; try discriminate Hthis; exact Hthis.
      * intros (values' & [= <-] & Hbuilt).
        destruct (constructor_cli_checks values E t Hbuilt) as [Hproject Hcreds].
        rewrite Hrun, Hcreds, Hproject. cbn [negb fst].
        unfold outcome in Hbuilt. rewrite Hshape in Hbuilt. exact Hbuilt.
    + discriminate.
    + intros values' [= <-] Hpath Hkey Hoauth.
      unfold oauth_complete in Hoauth.
      rewrite Hrun, Hpath, Hkey, Hoauth. reflexivity.
Qed.


(* ------------------------------------------------------------------ *)
(** ** The further theorems at concrete inputs *)

Lemma updateDocument_without_replaceAll_witness :
  issued_by (updateDocument Scenario.api_key_client (Some "doc-1") (Some "more") None)
    (Scenario3.env_of Scenario3.two_blocks) start
  = [DocumentsBatchUpdate (Some "doc-1") [InsertText 1 (Some "more")];
     DocumentsGet (Some "doc-1")].
Proof.
  destruct (@updateDocument_without_replaceAll Scenario.api_key_client
              (Some "doc-1") (Some "more") None
              (Scenario3.env_of Scenario3.two_blocks) start eq_refl)
    as (_ & _ & Hrun).
  apply Hrun. cbn. repeat split; eexists; reflexivity.
Defined.

Lemma updateDocument_delete_only_when_witness :
  exists doc front lastBlock,
    remote (Scenario3.env_of Scenario3.two_blocks) (issued start)
      (DocumentsGet (Some "doc-1")) = inr doc
    /\ body_content doc = Some (front ++ [lastBlock])%list
    /\ front <> []
    /\ DocumentsBatchUpdate (Some "doc-1") [DeleteContentRange 1 11]
       = DocumentsBatchUpdate (Some "doc-1")
           [DeleteContentRange 1 (Js.or_num (endIndex lastBlock) 1 - 1)].
Proof.
  refine (proj2 (@updateDocument_delete_only_when Scenario.api_key_client
                   (Some "doc-1") (Some "new") (Some true)
                   (Scenario3.env_of Scenario3.two_blocks) start
                   (DocumentsBatchUpdate (Some "doc-1") [DeleteContentRange 1 11])
                   _ eq_refl)).
  right. left. reflexivity.
Defined.

Lemma updateDocument_insert_rejected_witness :
  outcome (updateDocument Scenario.api_key_client (Some "doc-1") (Some "new")
             (Some true))
    Scenario11.env_insert_rejected start
  = inr (ErrorResult "socket hang up")
  /\ issued_by (updateDocument Scenario.api_key_client (Some "doc-1") (Some "new")
                  (Some true))
       Scenario11.env_insert_rejected start
     = [DocumentsGet (Some "doc-1");
        DocumentsBatchUpdate (Some "doc-1") [DeleteContentRange 1 11];
        DocumentsBatchUpdate (Some "doc-1") [InsertText 1 (Some "new")]].
Proof.
  assert (Hfront : [mkElement None (Some 1)] <> []) by discriminate.
  exact (@updateDocument_insert_rejected Scenario.api_key_client (Some "doc-1")
           (Some "new") Scenario11.env_insert_rejected start Scenario3.two_blocks
           [mkElement None (Some 1)] (mkElement (Some 1) (Some 12)) Scenario.hang_up
           eq_refl eq_refl Hfront eq_refl eq_refl).
Defined.

Lemma createDocument_with_content_witness :
  outcome (createDocument Scenario.api_key_client (Some "Notes") (Some "Hello"))
    Scenario9.reachable start
  = inr (Created (Some "doc-1") (Some "Notes")
           "https://docs.google.com/document/d/doc-1/edit" Scenario.empty_doc)
  /\ issued_by (createDocument Scenario.api_key_client (Some "Notes") (Some "Hello"))
       Scenario9.reachable start
     = [FilesCreate (Some "Notes") document_mime;
        DocumentsBatchUpdate (Some "doc-1") [InsertText 1 (Some "Hello")];
        DocumentsGet (Some "doc-1")].
Proof.
  assert (Hc : "Hello" <> EmptyString) by discriminate.
  assert (Hi : "doc-1" <> EmptyString) by discriminate.
  exact (@createDocument_with_content Scenario.api_key_client (Some "Notes")
           "Hello" "doc-1" Scenario9.reachable start Scenario.one_file
           Scenario.empty_doc Hc Hi eq_refl eq_refl eq_refl eq_refl).
Defined.

Lemma createDocument_without_id_witness :
  issued_by (createDocument Scenario.api_key_client (Some "Notes") (Some "Hello"))
    Scenario11.env_no_id start
  = [FilesCreate (Some "Notes") document_mime; DocumentsGet (Some EmptyString)].
Proof.
  exact (proj1 (@createDocument_without_id Scenario.api_key_client (Some "Notes")
                  (Some "Hello") Scenario11.env_no_id start
                  (mkFile None (Some "Notes") None None None) eq_refl eq_refl)).
Defined.

Lemma createDocument_insert_rejected_witness :
  outcome (createDocument Scenario.api_key_client (Some "Notes") (Some "Hello"))
    Scenario11.env_insert_rejected start
  = inr (ErrorResult "socket hang up").
Proof.
  assert (Hc : "Hello" <> EmptyString) by discriminate.
  assert (Hi : "doc-1" <> EmptyString) by discriminate.
  exact (proj1 (@createDocument_insert_rejected Scenario.api_key_client
                  (Some "Notes") "Hello" "doc-1" Scenario11.env_insert_rejected
                  start Scenario.one_file Scenario.hang_up Hc Hi
                  eq_refl eq_refl eq_refl)).
Defined.

Lemma reading_operations_do_not_mutate_witness :
  mutates (FilesList 10 None (search_query (Some "notes")) list_fields) = false.
Proof.
  refine (@reading_operations_do_not_mutate Scenario.api_key_client
            (OpSearch (Some "notes") None None) Scenario5.down start _ eq_refl _).
  left. reflexivity.
Defined.

Lemma listing_passes_pages_through_witness :
  outcome (listDocuments Scenario.api_key_client None (Some "page-2"))
    Scenario9.reachable start
  = inr (Listing (Some [Scenario.one_file]) None).
Proof.
  exact (proj1 (@listing_passes_pages_through Scenario.api_key_client None None
                  (Some "page-2") Scenario9.reachable start)
           (mkFileList (Some [Scenario.one_file]) None) eq_refl).
Defined.

Lemma callTool_routes_witness :
  outcome (callTool Scenario.api_key_client
             (mkCall "google_docs_get" (Some Scenario11.get_args)))
    Scenario9.reachable start
  = inr (mkToolResult (Stringified (DocumentData Scenario.empty_doc)) None).
Proof.
  destruct (@callTool_routes Scenario.api_key_client "google_docs_get"
              (Some Scenario11.get_args) (OpGet (Some "doc-1"))
              Scenario9.reachable start eq_refl) as (r & Hr & Hcall & _).
  rewrite Hcall. injection Hr as <-. reflexivity.
Defined.

Lemma callTool_isError_witness :
  exists result,
    outcome (callTool Scenario.api_key_client
               (mkCall "google_docs_delete" (Some Scenario11.get_args)))
      Scenario5.down start = inr result
    /\ isError result = None.
Proof.
  destruct (callTool_isError Scenario.api_key_client
              (mkCall "google_docs_delete" (Some Scenario11.get_args))
              Scenario5.down start) as (result & Hout & Hregistered & _).
  exists result. split; [exact Hout |].
  apply Hregistered. cbn. tauto.
Defined.

Lemma callTool_sends_without_arguments_witness :
  exists first rest,
    issued_by (callTool Scenario.api_key_client (mkCall "google_docs_create" None))
      Scenario9.reachable start = first :: rest.
Proof.
  refine (@callTool_sends_without_arguments Scenario.api_key_client
            "google_docs_create" Scenario9.reachable start _).
  left. reflexivity.
Defined.

Lemma catalogue_matches_dispatch_witness :
  exists r,
    outcome (callTool Scenario.api_key_client (mkCall "google_docs_list" None))
      Scenario9.reachable start
    = inr (mkToolResult (Stringified r) None).
Proof.
  destruct (catalogue_matches_dispatch Scenario.api_key_client "google_docs_list"
              None Scenario9.reachable start) as (_ & _ & [Hadvertised _]).
  apply Hadvertised. cbn. tauto.
Defined.

Lemma constructor_argument_precedence_witness :
  outcome (constructor (mkOptions None (Some "flag-key") None None None None))
    Scenario11.both_keys start
  = inr (mkClient "env-project" (Some (ApiKeyAuth "flag-key")))
  /\ this_auth (mkClient "env-project" (Some (ApiKeyAuth "flag-key")))
     = Some (ApiKeyAuth "flag-key").
Proof.
  split; [reflexivity |].
  assert (Hk : "flag-key" <> EmptyString) by discriminate.
  destruct (@constructor_argument_precedence
              (mkOptions None (Some "flag-key") None None None None)
              Scenario11.both_keys start
              (mkClient "env-project" (Some (ApiKeyAuth "flag-key"))) eq_refl)
    as (_ & _ & Hkey & _).
  exact (Hkey "flag-key" eq_refl Hk).
Defined.

Lemma constructor_prints_witness :
  printed_by (constructor Scenario4.oauth_only) Scenario4.bare start
  = [Log "Using OAuth2 authentication"; Log "Google Docs client initialized"].
Proof.
  destruct (constructor_prints Scenario4.oauth_only Scenario4.bare start)
    as [_ Hbuilt].
  exact (proj2 (Hbuilt _ eq_refl)).
Defined.

Lemma main_sends_one_list_witness :
  issued_by run_main Scenario9.reachable start
  = [FilesList 1 None "mimeType='application/vnd.google-apps.document'"
       "files(id, name)"].
Proof.
  destruct (main_sends_one_list Scenario9.reachable start) as [Hyes _].
  apply Hyes. exists Scenario9.key_values, Scenario.api_key_client.
  split; reflexivity.
Defined.

Lemma main_reports_in_order_witness :
  outcome run_main Scenario9.unconfigured start = inr 1
  /\ printed_by run_main Scenario9.unconfigured start
     = [Log "Google Docs API Connection Test";
        Log "===============================";
        LogErrorMessage "Error:" cli_credentials_required].
Proof.
  destruct (main_reports_in_order Scenario9.unconfigured start) as [_ Hvalues].
  exact (proj1 (Hvalues Scenario.no_values eq_refl) eq_refl eq_refl eq_refl).
Defined.

Lemma main_key_file_error_witness :
  outcome run_main Scenario11.missing_file start = inr 1
  /\ In (LogErrorMessage "Error:"
           "Service account key file not found at: /keys/missing.json")
       (printed_by run_main Scenario11.missing_file start).
Proof.
  destruct (@main_key_file_error Scenario11.missing_file start
              (mkCliValues (Some "/keys/missing.json") None (Some "my-project")
                 None None None)
              (new_Error Scenario11.missing_file
                 (key_file_not_found (Some "/keys/missing.json")))
              eq_refl eq_refl eq_refl eq_refl)
    as (_ & _ & _ & Hexit & Hprinted).
  split; [exact Hexit | exact Hprinted].
Defined.

Lemma index_startup_outcome_witness :
  outcome index_startup Scenario9.reachable start = inr Scenario.api_key_client.
Proof.
  destruct (index_startup_outcome Scenario9.reachable start) as (_ & Hiff & _).
  apply Hiff. exists Scenario9.key_values. split; reflexivity.
Defined.


(* ------------------------------------------------------------------ *)
(** ** What an error result carries *)

(** C2, amended: every per-call error that reaches the protocol caller
    carries a message, a code and details at most, and no stack trace,
    with one exception.  A rejected remote call gives the message of the
    error alone, as [{ error: message }] or
    [{ success: false, error: message }], for the eight operations other
    than [verifyConnection]; the dispatcher returns that result as it is
    for a registered name, and for any other name its own error text,
    built from the message alone.  The failure result of
    [verifyConnection] carries the message, the code or
    ['UNKNOWN_ERROR'], and as details the details of the error when it
    has any and only otherwise its stack text. *)
Theorem per_call_error_descriptor (this : GoogleDocsClient) (E : Env) (t : Trace) :
  (forall op, exists r,
      outcome (perform this op) E t = inr r
      /\ forall pre rq post e,
           issued_by (perform this op) E t = (pre ++ rq :: post)%list ->
           remote E (issued t ++ pre) rq = inl e ->
           match op with
           | OpVerify =>
               r = NotConnected (this_projectId this) (now E)
                     (mkErrorInfo (message e)
                        (match code e with
                         | Some c =>
                             if truthy_code (code e) then c
                             else CodeStr "UNKNOWN_ERROR"
                         | None => CodeStr "UNKNOWN_ERROR"
                         end)
                        (if Js.truthy (details e) then details e else stack e))
           | OpDelete _ | OpShare _ _ _ => r = FailureResult (message e)
           | _ => r = ErrorResult (message e)
           end)
  /\ (forall name args op,
        operation_of name (match args with Some a => a | None => no_args end)
          = Some op ->
        exists r,
          outcome (perform this op) E t = inr r
          /\ outcome (callTool this (mkCall name args)) E t
             = inr (mkToolResult (Stringified r) None))
  /\ (forall name args,
        ~ In name tool_names ->
        outcome (callTool this (mkCall name args)) E t
          = inr (mkToolResult
                   (Plain ("Google Docs API error: "
                             ++ mcp_message E (MethodNotFound E)
                                  ("Unknown tool: " ++ name)))
                   (Some true))).
Proof.
  split; [| split].
  - intros op. destruct (perform_converts this op E t) as (r & Hr & Hconv).
    exists r. split; [exact Hr |].
    intros pre rq post e Hl Hrej.
    destruct (Hconv pre rq post e Hl Hrej) as [_ ->].
    destruct op; reflexivity.
  - intros name args op Hop.
    destruct (perform_converts this op E t) as (r & Hr & _).
    exists r. split; [exact Hr |].
    unfold outcome in *.
    destruct (perform this op E t) as [res t'] eqn:Hrun. cbn [fst] in Hr. subst res.
    now rewrite (@callTool_run this name args op E t r t' Hop Hrun).
  - intros name args Hout. unfold outcome.
    now rewrite (callTool_default this args E t Hout).
Qed.

Lemma per_call_error_descriptor_witness :
  outcome (deleteDocument Scenario.api_key_client (Some "doc-1")) Scenario5.down start
  = inr (FailureResult "socket hang up")
  /\ outcome (callTool Scenario.api_key_client
                (mkCall "google_docs_delete" (Some Scenario11.get_args)))
       Scenario5.down start
     = inr (mkToolResult (Stringified (FailureResult "socket hang up")) None).
Proof.
  destruct (per_call_error_descriptor Scenario.api_key_client Scenario5.down start)
    as (Hops & Hcalls & _).
  destruct (Hops (OpDelete (Some "doc-1"))) as (r & Hr & Hconv).
  pose proof (Hconv [] (FilesDelete (Some "doc-1")) [] Scenario.hang_up
                eq_refl eq_refl) as Hres.
  cbn [message Scenario.hang_up] in Hres. subst r.
  destruct (Hcalls "google_docs_delete" (Some Scenario11.get_args)
              (OpDelete (Some "doc-1")) eq_refl) as (r & Hr' & Hcall).
  rewrite Hr in Hr'. injection Hr' as <-.
  split; [exact Hr | exact Hcall].
Defined.

(* ------------------------------------------------------------------ *)
(** ** The permission hint of the connectivity check *)

(** C9, at a failure whose code is the string ["403"], the form the
    testing guide of the repository shows with the permission hint: the
    check ends with 1, and what it prints after the result is an empty
    line and the generic failure line, not the permission headline. *)
Theorem main_string_403_prints_generic (E : Env) (t : Trace) (values : CliValues)
    (this : GoogleDocsClient) (e : JsError) :
  parseArgs E = inr values ->
  outcome (constructor (cli_options values E)) E t = inr this ->
  remote E (issued t)
    (FilesList 1 None "mimeType='application/vnd.google-apps.document'"
       "files(id, name)") = inl e ->
  code e = Some (CodeStr "403") ->
  outcome run_main E t = inr 1
  /\ exists before,
       printed_by run_main E t =
         (before ++
          [LogJson
             (NotConnected (this_projectId this) (now E)
                (mkErrorInfo (message e) (CodeStr "403")
                   (if Js.truthy (details e) then details e else stack e)));
           Log EmptyString;
           Log "❌ Connection failed!"])%list.
Proof.
  intros Hparse Hbuilt Hrej Hcode.
  destruct (main_configured E t Hparse Hbuilt)
    as (r & lines & Hr & Hmain & before & Hlines).
  apply run_main_main in Hmain.
  unfold outcome in Hr.
  rewrite (verifyConnection_rejected this E t Hrej) in Hr. cbn [fst] in Hr.
  injection Hr as <-.
  unfold error_info in Hmain, Hlines. rewrite Hcode in Hmain, Hlines.
  cbn [truthy_code Js.truthy_string result_connected] in Hmain, Hlines.
  unfold verdict in Hlines. cbn [result_connected result_error_code info_code
    code_is_403] in Hlines.
  split.
  - unfold outcome. now rewrite Hmain.
  - exists before. unfold printed_by, trace_after. rewrite Hmain.
    cbn [snd console]. rewrite skipn_issued. exact Hlines.
Qed.

Lemma main_string_403_prints_generic_witness :
  outcome run_main Scenario12.scopes_refused start = inr 1
  /\ printed_by run_main Scenario12.scopes_refused start
     = [Log "Google Docs API Connection Test";
        Log "===============================";
        Log "Using API key: AIza...";
        Log "Using project ID: my-project";
        Log EmptyString;
        Log "Using API key authentication";
        Log "Google Docs client initialized";
        Log "Testing connection...";
        LogError "Error verifying Google Docs API connection:"
          Scenario12.insufficient_scopes;
        Log EmptyString;
        Log "Connection Result:";
        LogJson
          (NotConnected "my-project" "2025-04-15T07:30:00.000Z"
             (mkErrorInfo "Request had insufficient authentication scopes."
                (CodeStr "403")
                (Some "Error: Request had insufficient authentication scopes. at main (file:///app/dist/index.js:1:1)")));
        Log EmptyString;
        Log "❌ Connection failed!"].
Proof.
  split; [| reflexivity].
  exact (proj1 (@main_string_403_prints_generic Scenario12.scopes_refused start
                  Scenario9.key_values Scenario.api_key_client
                  Scenario12.insufficient_scopes eq_refl eq_refl eq_refl eq_refl)).
Defined.
